(** * radio_beam: the [Beams] collection of [multiple_beams.py]

    A shallow embedding of [radio_beam/multiple_beams.py] and the
    properties of its constructor, metadata setter, indexing operator and
    FITS table adapter.

    Python is dynamically typed, so every argument ranges over one universe
    of values, [pyval].  Exceptions are values of [exn]; warnings are
    collected in a log.  Numbers stored in arrays are IEEE binary64 floats
    (numpy's float64). *)

From Stdlib Require Import ZArith QArith String List Floats.
From stdpp Require Import gmap strings list fin_maps.

Set Warnings "-register-all".
Open Scope string_scope.

(** ** Units (astropy.units)

    Units are kept symbolically.  Two units are equivalent when they have the
    same physical dimension; the dimension of a unit is its power of plane
    angle and its power of length (the representative of every dimension
    that is not an angle). *)

Inductive Unit : Type :=
| deg
| arcsec
| rad
| sr
| metre
| dimensionless_unscaled
| UMul (a b : Unit)
| USqrt (a : Unit).

Fixpoint angle_power (u : Unit) : Q :=
  match u with
  | deg | arcsec | rad => 1
  | sr => 2
  | metre | dimensionless_unscaled => 0
  | UMul a b => angle_power a + angle_power b
  | USqrt a => angle_power a * (1 # 2)
  end.

Fixpoint length_power (u : Unit) : Q :=
  match u with
  | metre => 1
  | deg | arcsec | rad | sr | dimensionless_unscaled => 0
  | UMul a b => length_power a + length_power b
  | USqrt a => length_power a * (1 # 2)
  end.

(** [a.is_equivalent(b)] with no extra equivalencies. *)
Definition is_equivalent (a b : Unit) : bool :=
  Qeq_bool (angle_power a) (angle_power b)
  && Qeq_bool (length_power a) (length_power b).

(** ** Values *)

(** A float64 numpy array of dimension 0 or 1. *)
Inductive ndarray : Type :=
| NdScalar (x : float)
| NdVec (xs : list float).

Inductive pyval : Type :=
| PyNone
| PyBool (b : bool)
| PyInt (n : Z)
| PyFloat (x : float)
| PyStr (s : string)
| PySlice (start stop step : option Z)
| PyList (xs : list pyval)
| PyDict (d : gmap string pyval)
| PyUnit (u : Unit)
| PyArray (a : ndarray)            (* numpy.ndarray, dtype float64 *)
| PyMask (bs : list bool)          (* one-dimensional numpy.ndarray, dtype bool *)
| PyQuantity (a : ndarray) (u : Unit).  (* astropy Quantity: an ndarray subclass *)

Inductive exn : Type :=
| AttributeError (attr : string)
| TypeError (msg : string)
| ValueError (msg : string)
| KeyError (key : string)
| IndexError
| OutsideModel (what : string).   (* a numpy corner the embedding leaves out *)

(** A computation that may raise. *)
Definition res (A : Type) : Type := exn + A.

(** A computation that may warn (the log, oldest first) and may raise. *)
Definition M (A : Type) : Type := list string * res A.

Definition ret {A} (x : A) : M A := ([], inr x).
Definition raise {A} (e : exn) : M A := ([], inl e).
Definition warn (msg : string) : M unit := ([msg], inr tt).
Definition lift {A} (r : res A) : M A := ([], r).

Definition bind {A B} (m : M A) (f : A -> M B) : M B :=
  match m with
  | (w, inl e) => (w, inl e)
  | (w, inr a) => let '(w', r) := f a in ((w ++ w')%list, r)
  end.

Definition rbind {A B} (r : res A) (f : A -> res B) : res B :=
  match r with
  | inl e => inl e
  | inr a => f a
  end.

Declare Scope py_scope.
Delimit Scope py_scope with py.
Notation "x <- m ;; k" := (bind m (fun x => k))
  (at level 100, m at next level, right associativity) : py_scope.
Notation "m ;;; k" := (bind m (fun _ => k))
  (at level 100, right associativity) : py_scope.
Notation "x <~ r ;; k" := (rbind r (fun x => k))
  (at level 100, r at next level, right associativity) : py_scope.

(** ** numpy and astropy primitives *)

Definition two_pi : float := (2 * 0x1.921fb54442d18p+1)%float.

Definition b2f (b : bool) : float := if b then 1%float else 0%float.

(** Conversion of a Python int to float64, rounding to nearest even. *)
Definition Z2f (n : Z) : float := SF2Prim (binary_normalize prec emax n 0 false).

Definition nd_map (f : float -> float) (a : ndarray) : ndarray :=
  match a with
  | NdScalar x => NdScalar (f x)
  | NdVec xs => NdVec (map f xs)
  end.

(** The float of a Python number, for list to array conversion. *)
Definition as_number (v : pyval) : option float :=
  match v with
  | PyBool b => Some (b2f b)
  | PyInt n => Some (Z2f n)
  | PyFloat x => Some x
  | _ => None
  end.

Fixpoint as_numbers (vs : list pyval) : option (list float) :=
  match vs with
  | [] => Some []
  | v :: vs' =>
      match as_number v, as_numbers vs' with
      | Some x, Some xs => Some (x :: xs)
      | _, _ => None
      end
  end.

(** [len(v)] *)
Definition py_len (v : pyval) : res nat :=
  match v with
  | PyStr s => inr (String.length s)
  | PyList xs => inr (length xs)
  | PyDict d => inr (size d)
  | PyArray (NdVec xs) | PyQuantity (NdVec xs) _ => inr (length xs)
  | PyMask bs => inr (length bs)
  | PyArray (NdScalar _) | PyQuantity (NdScalar _) _ =>
      inl (TypeError "len() of unsized object")
  | PyNone | PyBool _ | PyInt _ | PyFloat _ | PySlice _ _ _ | PyUnit _ =>
      inl (TypeError "object has no len()")
  end.

(** [v.unit]: only a Quantity has the attribute. *)
Definition get_unit (v : pyval) : res Unit :=
  match v with
  | PyQuantity _ u => inr u
  | _ => inl (AttributeError "unit")
  end.

(** [v.value] *)
Definition get_value (v : pyval) : res pyval :=
  match v with
  | PyQuantity a _ => inr (PyArray a)
  | _ => inl (AttributeError "value")
  end.

(** [v / c] for a float [c]. *)
Definition true_divide (v : pyval) (c : float) : res pyval :=
  match v with
  | PyBool b => inr (PyFloat (b2f b / c))
  | PyInt n => inr (PyFloat (Z2f n / c))
  | PyFloat x => inr (PyFloat (x / c))
  | PyArray a => inr (PyArray (nd_map (fun x => x / c)%float a))
  | PyMask bs => inr (PyArray (NdVec (map (fun b => b2f b / c)%float bs)))
  | PyQuantity a u => inr (PyQuantity (nd_map (fun x => x / c)%float a) u)
  | PyUnit u => inr (PyQuantity (NdScalar (1 / c)) u)
  | PyNone | PyStr _ | PySlice _ _ _ | PyList _ | PyDict _ =>
      inl (TypeError "unsupported operand type(s) for /")
  end.

(** [np.sqrt(v)]; the constructor applies it to results of [true_divide]. *)
Definition np_sqrt (v : pyval) : res pyval :=
  match v with
  | PyFloat x => inr (PyFloat (PrimFloat.sqrt x))
  | PyArray a => inr (PyArray (nd_map PrimFloat.sqrt a))
  | PyQuantity a u => inr (PyQuantity (nd_map PrimFloat.sqrt a) (USqrt u))
  | _ => inl (OutsideModel "np.sqrt")
  end.

(** [np.asarray(v)] for numbers, sequences of numbers and arrays. *)
Definition as_array (v : pyval) : res ndarray :=
  match v with
  | PyBool b => inr (NdScalar (b2f b))
  | PyInt n => inr (NdScalar (Z2f n))
  | PyFloat x => inr (NdScalar x)
  | PyArray a | PyQuantity a _ => inr a
  | PyMask bs => inr (NdVec (map b2f bs))
  | PyList xs =>
      match as_numbers xs with
      | Some fs => inr (NdVec fs)
      | None => inl (TypeError "The value must be a valid Python or Numpy numeric type.")
      end
  | PyNone | PyStr _ | PyDict _ | PySlice _ _ _ | PyUnit _ =>
      inl (TypeError "The value must be a valid Python or Numpy numeric type.")
  end.

(** [v * unit]: a Quantity gets the product of the units, a unit becomes a
    composite unit, anything else is converted to an array carrying the
    unit. *)
Definition mul_unit (v : pyval) (un : Unit) : res pyval :=
  match v with
  | PyQuantity a u0 => inr (PyQuantity a (UMul u0 un))
  | PyUnit u0 => inr (PyUnit (UMul u0 un))
  | PyStr _ => inl (OutsideModel "parsing a string as a unit")
  | _ => (a <~ as_array v ;; inr (PyQuantity a un))%py
  end.

(** [v * c] for a float [c]; the constructor applies it to a Quantity. *)
Definition mul_float (v : pyval) (c : float) : res pyval :=
  match v with
  | PyQuantity a u => inr (PyQuantity (nd_map (fun x => x * c)%float a) u)
  | PyArray a => inr (PyArray (nd_map (fun x => x * c)%float a))
  | PyFloat x => inr (PyFloat (x * c))
  | _ => inl (OutsideModel "multiplication by a float")
  end.

(** [np.zeros_like(v)]: zeros with the shape of [np.asarray(v)].  [None]
    and every other scalar object give a zero-dimensional array. *)
Definition zeros_like (v : pyval) : res pyval :=
  match v with
  | PyNone | PyBool _ | PyInt _ | PyFloat _ | PyUnit _ | PyDict _ | PySlice _ _ _ =>
      inr (PyArray (NdScalar 0))
  | PyArray a => inr (PyArray (nd_map (fun _ => 0%float) a))
  | PyMask bs => inr (PyMask (map (fun _ => false) bs))
  | PyQuantity a u => inr (PyQuantity (nd_map (fun _ => 0%float) a) u)
  | PyList xs =>
      match as_numbers xs with
      | Some fs => inr (PyArray (NdVec (map (fun _ => 0%float) fs)))
      | None => inl (OutsideModel "np.zeros_like of a nested or non-numeric list")
      end
  | PyStr _ => inl (OutsideModel "np.zeros_like of a string")
  end.

(** [u.Quantity(v, unit)] for a bare number, sequence or array [v]. *)
Definition Quantity (v : pyval) (un : Unit) : res pyval :=
  match v with
  | PyQuantity _ _ => inl (OutsideModel "conversion between units")
  | _ => (a <~ as_array v ;; inr (PyQuantity a un))%py
  end.

(** ** Subscription and iteration (Python and numpy) *)

(** The position a Python index denotes in a sequence of [n] items. *)
Definition norm_index (n : nat) (i : Z) : option nat :=
  let j := if (i <? 0)%Z then (i + Z.of_nat n)%Z else i in
  if ((0 <=? j) && (j <? Z.of_nat n))%Z then Some (Z.to_nat j) else None.

(** [slice(start, stop, step).indices(n)] *)
Definition slice_indices (n : Z) (start stop step : option Z) : res (Z * Z * Z) :=
  let st := default 1%Z step in
  if (st =? 0)%Z then inl (ValueError "slice step cannot be zero")
  else
    let lower := if (st <? 0)%Z then (-1)%Z else 0%Z in
    let upper := if (st <? 0)%Z then (n - 1)%Z else n in
    let clamp v := if (v <? 0)%Z then Z.max (v + n) lower else Z.min v upper in
    let a := match start with
             | None => if (st <? 0)%Z then upper else lower
             | Some v => clamp v
             end in
    let b := match stop with
             | None => if (st <? 0)%Z then lower else upper
             | Some v => clamp v
             end in
    inr (a, b, st).

Fixpoint slice_positions (fuel : nat) (i stop step : Z) : list nat :=
  match fuel with
  | O => []
  | S fuel' =>
      if (if (0 <? step)%Z then (i <? stop)%Z else (stop <? i)%Z)
      then Z.to_nat i :: slice_positions fuel' (i + step)%Z stop step
      else []
  end.

Definition take_slice {A} (xs : list A) (start stop step : option Z) : res (list A) :=
  match slice_indices (Z.of_nat (length xs)) start stop step with
  | inl e => inl e
  | inr (a, b, st) =>
      inr (omap (fun i => xs !! i) (slice_positions (length xs) a b st))
  end.

(** Selection of the items of [xs] at the true positions of a boolean array
    of the same length. *)
Fixpoint compress {A} (bs : list bool) (xs : list A) : list A :=
  match bs, xs with
  | b :: bs', x :: xs' => if b then x :: compress bs' xs' else compress bs' xs'
  | _, _ => []
  end.

Definition item {A} (xs : list A) (i : Z) : res A :=
  match norm_index (length xs) i with
  | Some j => match xs !! j with Some x => inr x | None => inl IndexError end
  | None => inl IndexError
  end.

(** [x[view]] for the index kinds [__getitem__] passes on: an int (or
    bool), a slice, a boolean array. *)
Definition py_getitem (x view : pyval) : res pyval :=
  match x with
  | PyList xs =>
      match view with
      | PyInt i => item xs i
      | PyBool b => item xs (if b then 1 else 0)%Z
      | PySlice a b st => (ys <~ take_slice xs a b st ;; inr (PyList ys))%py
      | _ => inl (TypeError "list indices must be integers or slices")
      end
  | PyArray (NdVec xs) =>
      match view with
      | PyInt i => (y <~ item xs i ;; inr (PyFloat y))%py
      | PySlice a b st => (ys <~ take_slice xs a b st ;; inr (PyArray (NdVec ys)))%py
      | PyMask bs =>
          if Nat.eqb (length bs) (length xs) then inr (PyArray (NdVec (compress bs xs)))
          else inl IndexError
      | _ => inl (OutsideModel "array index")
      end
  | PyQuantity (NdVec xs) un =>
      match view with
      | PyInt i => (y <~ item xs i ;; inr (PyQuantity (NdScalar y) un))%py
      | PySlice a b st => (ys <~ take_slice xs a b st ;; inr (PyQuantity (NdVec ys) un))%py
      | PyMask bs =>
          if Nat.eqb (length bs) (length xs) then inr (PyQuantity (NdVec (compress bs xs)) un)
          else inl IndexError
      | _ => inl (OutsideModel "array index")
      end
  | PyMask xs =>
      match view with
      | PyInt i => (y <~ item xs i ;; inr (PyBool y))%py
      | PySlice a b st => (ys <~ take_slice xs a b st ;; inr (PyMask ys))%py
      | PyMask bs =>
          if Nat.eqb (length bs) (length xs) then inr (PyMask (compress bs xs))
          else inl IndexError
      | _ => inl (OutsideModel "array index")
      end
  | PyArray (NdScalar _) | PyQuantity (NdScalar _) _ =>
      match view with
      | PyInt _ | PySlice _ _ _ => inl IndexError
      | _ => inl (OutsideModel "array index")
      end
  | PyDict d =>
      match view with
      | PyStr k => match d !! k with Some v => inr v | None => inl (KeyError k) end
      | _ => inl (OutsideModel "dictionary key")
      end
  | PyStr _ => inl (OutsideModel "string subscription")
  | PyNone | PyBool _ | PyInt _ | PyFloat _ | PySlice _ _ _ | PyUnit _ =>
      inl (TypeError "object is not subscriptable")
  end.

(** The items [iter(v)] yields. *)
Definition py_iter (v : pyval) : res (list pyval) :=
  match v with
  | PyList xs => inr xs
  | PyArray (NdVec xs) => inr (map PyFloat xs)
  | PyQuantity (NdVec xs) un => inr (map (fun x => PyQuantity (NdScalar x) un) xs)
  | PyMask bs => inr (map PyBool bs)
  | PyArray (NdScalar _) | PyQuantity (NdScalar _) _ =>
      inl (TypeError "iteration over a 0-d array")
  | PyDict _ => inl (OutsideModel "iteration order of a dictionary")
  | PyStr _ => inl (OutsideModel "string iteration")
  | PyNone | PyBool _ | PyInt _ | PyFloat _ | PySlice _ _ _ | PyUnit _ =>
      inl (TypeError "object is not iterable")
  end.

(** ** The collaborators of [beam.py]

    [multiple_beams.py] imports [Beam], [_to_area] and [SIGMA_TO_FWHM] from
    [beam.py].  The class below is parametrised by them; this module gives
    the instance used to run it on concrete inputs. *)

Module Collaborators.

(** Modelled from the spec: [SIGMA_TO_FWHM] of [beam.py], the fixed scalar
    relating a Gaussian sigma to its full width at half maximum,
    [sqrt(8 ln 2)]. *)
Definition SIGMA_TO_FWHM : float := 0x1.2d6abe44afc43p+1%float.

Definition FWHM_TO_AREA : float :=
  (two_pi / (SIGMA_TO_FWHM * SIGMA_TO_FWHM))%float.

(** Radians per unit, for units equivalent to a plane angle. *)
Fixpoint to_radians (un : Unit) : float :=
  match un with
  | deg => (0x1.921fb54442d18p+1 / 180)%float
  | arcsec => (0x1.921fb54442d18p+1 / 648000)%float
  | rad | sr | metre | dimensionless_unscaled => 1%float
  | UMul a b => (to_radians a * to_radians b)%float
  | USqrt a => PrimFloat.sqrt (to_radians a)
  end.

Definition broadcast (f : float -> float -> float) (a b : ndarray) : res ndarray :=
  match a, b with
  | NdScalar x, NdScalar y => inr (NdScalar (f x y))
  | NdScalar x, NdVec ys => inr (NdVec (map (f x) ys))
  | NdVec xs, NdScalar y => inr (NdVec (map (fun x => f x y) xs))
  | NdVec xs, NdVec ys =>
      if Nat.eqb (length xs) (length ys)
      then inr (NdVec (zip_with f xs ys))
      else inl (ValueError "operands could not be broadcast together")
  end.

(** Modelled from the spec: [_to_area] of [beam.py], the pure function from
    a major and a minor axis sequence to the Gaussian-ellipse solid angle
    of each beam, in steradian. *)
Definition _to_area (major minor : pyval) : res pyval :=
  match major, minor with
  | PyQuantity a ua, PyQuantity b ub =>
      if is_equivalent sr (UMul ua ub)
      then
        (c <~ broadcast
                (fun x y => (x * to_radians ua) * (y * to_radians ub) * FWHM_TO_AREA)%float
                a b ;;
         inr (PyQuantity c sr))%py
      else inl (ValueError "units are not convertible to sr")
  | _, _ => inl (TypeError "unsupported operand type(s) for *")
  end.

(** Modelled from the spec: the single-beam value [Beam] of [beam.py], which
    carries [major], [minor], [pa] and [meta]. *)
Record BeamT : Type := mkBeam {
  major : pyval;
  minor : pyval;
  pa : pyval;
  beam_meta : pyval
}.

Definition Beam (major minor pa meta : pyval) : res BeamT :=
  inr (mkBeam major minor pa meta).

End Collaborators.

(** ** The [Beams] object

    A [Beams] instance is a Quantity (an array of areas and its unit)
    together with the attributes assigned to it. *)

Record Beams : Type := mkBeams {
  q_value : ndarray;
  q_unit : Unit;
  attrs : gmap string pyval
}.

(** Plain attribute assignment, [self.name = v]. *)
Definition store (name : string) (v : pyval) (self : Beams) : Beams :=
  {| q_value := q_value self;
     q_unit := q_unit self;
     attrs := <[name := v]> (attrs self) |}.

(** The getter of the [meta] property: [return self._meta]. *)
Definition meta_getter (self : Beams) : res pyval :=
  match attrs self !! "_meta" with
  | Some v => inr v
  | None => inl (AttributeError "_meta")
  end.

(** [self.name].  Properties of the class come first, then the instance
    attributes; a name found in neither raises [AttributeError], which is
    what [Quantity.__getattr__] does for a name that is not a unit. *)
Definition getattr (self : Beams) (name : string) : res pyval :=
  if String.eqb name "meta" then meta_getter self
  else if String.eqb name "value" then inr (PyArray (q_value self))
  else if String.eqb name "unit" then inr (PyUnit (q_unit self))
  else if String.eqb name "isfinite" then inl (OutsideModel "the isfinite property")
  else match attrs self !! name with
       | Some v => inr v
       | None => inl (AttributeError name)
       end.

(** [Beams.__len__]: [return len(self.majors)]. *)
Definition Beams_len (self : Beams) : res nat :=
  (majors <~ getattr self "majors" ;; py_len majors)%py.

(** Methods that mutate the object thread it as a state. *)
Definition St (A : Type) : Type := Beams -> res A * Beams.

Definition st_raise {A} (e : exn) : St A := fun self => (inl e, self).
Definition st_lift {A} (r : res A) : St A := fun self => (r, self).
Definition st_read {A} (f : Beams -> res A) : St A := fun self => (f self, self).
Definition st_store (name : string) (v : pyval) : St unit :=
  fun self => (inr tt, store name v self).
Definition st_bind {A B} (m : St A) (f : A -> St B) : St B :=
  fun self =>
    match m self with
    | (inl e, self') => (inl e, self')
    | (inr a, self') => f a self'
    end.

Notation "x <-- m ;; k" := (st_bind m (fun x => k))
  (at level 100, m at next level, right associativity) : py_scope.

(** The setter of the [meta] property. *)
Definition meta_setter (value : pyval) : St unit :=
  (lv <-- st_lift (py_len value) ;;
   ls <-- st_read Beams_len ;;
   if Nat.eqb lv ls
   then st_store "_meta" value
   else st_raise (TypeError "metadata must be a list of dictionaries"))%py.

(** The statement [self.meta = value] inside a computation of [M]. *)
Definition assign_meta (value : pyval) (self : Beams) : M Beams :=
  match meta_setter value self with
  | (inl e, _) => raise e
  | (inr _, self') => ret self'
  end.

Definition is_None (v : pyval) : bool :=
  match v with PyNone => true | _ => false end.

(** [isinstance(view, (int, slice))]; [bool] is a subclass of [int]. *)
Definition isinstance_int_slice (view : pyval) : bool :=
  match view with
  | PyBool _ | PyInt _ | PySlice _ _ _ => true
  | _ => false
  end.

(** [isinstance(view, np.ndarray)] *)
Definition isinstance_ndarray (view : pyval) : bool :=
  match view with
  | PyArray _ | PyMask _ | PyQuantity _ _ => true
  | _ => false
  end.

(** [view.dtype.name] of an array. *)
Definition dtype_name (view : pyval) : string :=
  match view with
  | PyMask _ => "bool"
  | _ => "float64"
  end.

Definition mask_bits (view : pyval) : res (list bool) :=
  match view with
  | PyMask bs => inr bs
  | _ => inl (OutsideModel "truth value of an array element")
  end.

(** ** FITS binary tables

    A table has named columns and rows; a row holds one cell per column. *)

Record BinTableHDU : Type := mkBinTable {
  columns_names : list string;
  data : list (list pyval)
}.

Fixpoint field_index (names : list string) (key : string) : option nat :=
  match names with
  | [] => None
  | name :: names' =>
      if String.eqb name key then Some O
      else option_map S (field_index names' key)
  end.

(** [row[key]] *)
Definition row_getitem (names : list string) (row : list pyval) (key : string)
  : res pyval :=
  match field_index names key with
  | None => inl (KeyError key)
  | Some i =>
      match row !! i with
      | Some v => inr v
      | None => inl IndexError
      end
  end.

Fixpoint mapM {A B} (f : A -> res B) (xs : list A) : res (list B) :=
  match xs with
  | [] => inr []
  | x :: xs' => (y <~ f x ;; ys <~ mapM f xs' ;; inr (y :: ys))%py
  end.

(** [bintable.data[key]]: the cells of a column, in row order; a name that
    is not a column raises [KeyError]. *)
Definition data_getitem (t : BinTableHDU) (key : string) : res pyval :=
  match field_index (columns_names t) key with
  | None => inl (KeyError key)
  | Some _ =>
      (cells <~ mapM (fun row => row_getitem (columns_names t) row key) (data t) ;;
       inr (PyList cells))%py
  end.

Definition excluded (key : string) : bool :=
  String.eqb key "BMAJ" || String.eqb key "BPA" || String.eqb key "BMIN".

(** [{key: row[key] for key in names if key not in ('BMAJ', 'BPA', 'BMIN')}],
    the keys still to visit being [keys]. *)
Fixpoint row_meta (names : list string) (row : list pyval) (keys : list string)
    (acc : gmap string pyval) : res (gmap string pyval) :=
  match keys with
  | [] => inr acc
  | key :: keys' =>
      if excluded key then row_meta names row keys' acc
      else (v <~ row_getitem names row key ;;
            row_meta names row keys' (<[key := v]> acc))%py
  end.

(** ** The [isfinite] property

    The operators its getter applies, for numbers and arrays of numbers. *)

(** [v > 0], elementwise on an array.  A Quantity may be compared with the
    number 0 whatever its unit is. *)
Definition gt_zero (v : pyval) : res pyval :=
  match v with
  | PyBool b => inr (PyBool b)
  | PyInt n => inr (PyBool (0 <? n)%Z)
  | PyFloat x => inr (PyBool (0 <? x)%float)
  | PyArray (NdScalar x) | PyQuantity (NdScalar x) _ => inr (PyBool (0 <? x)%float)
  | PyArray (NdVec xs) | PyQuantity (NdVec xs) _ =>
      inr (PyMask (map (fun x => (0 <? x)%float) xs))
  | PyMask bs => inr (PyMask bs)
  | PyNone | PyStr _ | PySlice _ _ _ | PyList _ | PyDict _ | PyUnit _ =>
      inl (OutsideModel "ordering of an object that is not a number")
  end.

(** [np.isfinite(v)] *)
Definition np_isfinite (v : pyval) : res pyval :=
  match v with
  | PyBool _ | PyInt _ => inr (PyBool true)
  | PyFloat x => inr (PyBool (is_finite x))
  | PyArray (NdScalar x) | PyQuantity (NdScalar x) _ => inr (PyBool (is_finite x))
  | PyArray (NdVec xs) | PyQuantity (NdVec xs) _ => inr (PyMask (map is_finite xs))
  | PyMask bs => inr (PyMask (map (fun _ => true) bs))
  | PyList xs =>
      match as_numbers xs with
      | Some fs => inr (PyMask (map is_finite fs))
      | None => inl (TypeError "ufunc 'isfinite' not supported for the input types")
      end
  | PyNone | PyStr _ | PySlice _ _ _ | PyDict _ | PyUnit _ =>
      inl (TypeError "ufunc 'isfinite' not supported for the input types")
  end.

(** [a & b] on booleans and boolean arrays, with numpy's broadcasting of a
    scalar or a one-item array. *)
Definition py_and (a b : pyval) : res pyval :=
  match a, b with
  | PyBool x, PyBool y => inr (PyBool (x && y))
  | PyBool x, PyMask ys => inr (PyMask (map (andb x) ys))
  | PyMask xs, PyBool y => inr (PyMask (map (fun x => x && y) xs))
  | PyMask xs, PyMask ys =>
      if Nat.eqb (length xs) (length ys) then inr (PyMask (zip_with andb xs ys))
      else match xs, ys with
           | [x], _ => inr (PyMask (map (andb x) ys))
           | _, [y] => inr (PyMask (map (fun x => x && y) xs))
           | _, _ => inl (ValueError "operands could not be broadcast together")
           end
  | _, _ => inl (OutsideModel "bitwise and of objects that are not booleans")
  end.

(** The getter of the [isfinite] property:
    [(self.major > 0) & (self.minor > 0) & np.isfinite(self.major)
     & np.isfinite(self.minor) & np.isfinite(self.pa)]. *)
Definition isfinite_getter (self : Beams) : res pyval :=
  (major <~ getattr self "major" ;;
   a <~ gt_zero major ;;
   minor <~ getattr self "minor" ;;
   b <~ gt_zero minor ;;
   ab <~ py_and a b ;;
   major' <~ getattr self "major" ;;
   c <~ np_isfinite major' ;;
   abc <~ py_and ab c ;;
   minor' <~ getattr self "minor" ;;
   d <~ np_isfinite minor' ;;
   abcd <~ py_and abc d ;;
   pa <~ getattr self "pa" ;;
   e <~ np_isfinite pa ;;
   py_and abcd e)%py.

(** Whether beam [i] of three axis vectors is finite: both axes positive,
    and the three numbers neither NaN nor infinite. *)
Definition finite_beam (x y z : float) : bool :=
  (0 <? x)%float && (0 <? y)%float && is_finite x && is_finite y && is_finite z.

Fixpoint finite_beams (xs ys zs : list float) : list bool :=
  match xs, ys, zs with
  | x :: xs', y :: ys', z :: zs' => finite_beam x y z :: finite_beams xs' ys' zs'
  | _, _, _ => []
  end.

(** The outcome of a computation, with the object it returns transformed. *)
Definition M_map {A B} (g : A -> B) (m : M A) : M B :=
  (m.1, match m.2 with inl e => inl e | inr a => inr (g a) end).


(** ** The class [Beams] *)

Section BeamsClass.

Variable SIGMA_TO_FWHM : float.
Variable _to_area : pyval -> pyval -> res pyval.
Variable BeamT : Type.
Variable Beam : pyval -> pyval -> pyval -> pyval -> res BeamT.

(** The block under [if areas is not None]: a round beam from an area. *)
Definition from_areas (areas : pyval) : M (pyval * pyval * pyval) :=
  (q <- lift (true_divide areas two_pi) ;;
   s <- lift (np_sqrt q) ;;
   rad <- lift (mul_unit s deg) ;;
   majors <- lift (mul_float rad SIGMA_TO_FWHM) ;;
   minors <- lift (mul_float rad SIGMA_TO_FWHM) ;;
   z <- lift (zeros_like areas) ;;
   pas <- lift (mul_unit z deg) ;;
   ret (majors, minors, pas))%py.

(** The unit check shared by [majors], [minors] and [pas]: keep a value
    whose unit is equivalent to degrees, otherwise warn and multiply by
    [u.deg]. *)
Definition in_degrees (what : string) (v : pyval) : M pyval :=
  (un <- lift (get_unit v) ;;
   if is_equivalent deg un then ret v
   else (warn ("Assuming " ++ what ++ " has been specified in degrees") ;;;
         lift (mul_unit v deg)))%py.

(** [Beams.__new__] *)
Definition Beams_new (majors minors pas areas : pyval) (default_unit : Unit)
    (meta : pyval) : M Beams :=
  (given <- (if is_None areas then ret (majors, minors, pas)
             else from_areas areas) ;;
   let majors := given.1.1 in
   let minors := given.1.2 in
   let pas := given.2 in
   majors <- (if is_None majors then ret majors
              else in_degrees "major axes" majors) ;;
   minors <- (if is_None minors then ret minors
              else in_degrees "minor axes" minors) ;;
   pas <- (if is_None pas
           then (z <- lift (zeros_like pas) ;; lift (mul_unit z deg))
           else (lp <- lift (py_len pas) ;;
                 lm <- lift (py_len majors) ;;
                 if negb (Nat.eqb lp lm)
                 then raise (ValueError
                   "Number of position angles must match number of major axis lengths")
                 else in_degrees "position angles" pas)) ;;
   minors <- (if is_None minors then ret majors
              else (lmin <- lift (py_len minors) ;;
                    lmaj <- lift (py_len majors) ;;
                    if negb (Nat.eqb lmin lmaj)
                    then raise (ValueError
                      "Minor and major axes must have same number of values")
                    else ret minors)) ;;
   area <- lift (_to_area majors minors) ;;
   v <- lift (get_value area) ;;
   a <- lift (as_array v) ;;
   let self := mkBeams a sr ∅ in
   let self := store "majors" majors self in
   let self := store "minors" minors self in
   let self := store "pas" pas self in
   let self := store "default_unit" (PyUnit default_unit) self in
   if is_None meta
   then (n <- lift (Beams_len self) ;;
         assign_meta (PyList (replicate n (PyDict ∅))) self)
   else assign_meta meta self)%py.

(** [Beams.__getitem__]; a call that falls off the end returns [None]. *)
Definition getitem (self : Beams) (view : pyval) : res (option BeamT) :=
  (if isinstance_int_slice view then
     major <~ (x <~ getattr self "major" ;; py_getitem x view) ;;
     minor <~ (x <~ getattr self "minor" ;; py_getitem x view) ;;
     pa <~ (x <~ getattr self "pa" ;; py_getitem x view) ;;
     meta <~ (x <~ getattr self "meta" ;; py_getitem x view) ;;
     b <~ Beam major minor pa meta ;;
     inr (Some b)
   else if isinstance_ndarray view then
     if negb (String.eqb (dtype_name view) "bool")
     then inl (ValueError
            "If using an array to index beams, it must be a boolean array.")
     else
       major <~ (x <~ getattr self "major" ;; py_getitem x view) ;;
       minor <~ (x <~ getattr self "minor" ;; py_getitem x view) ;;
       pa <~ (x <~ getattr self "pa" ;; py_getitem x view) ;;
       meta <~ (x <~ getattr self "meta" ;;
                bs <~ mask_bits view ;;
                xs <~ py_iter x ;;
                inr (PyList (compress bs xs))) ;;
       b <~ Beam major minor pa meta ;;
       inr (Some b)
   else inr None)%py.

(** [u.Quantity(bintable.data[key], u.arcsec)] *)
Definition column_quantity (bintable : BinTableHDU) (key : string) : res pyval :=
  (c <~ data_getitem bintable key ;; Quantity c arcsec)%py.

(** [Beams.from_fits_bintable]; the constructor's [default_unit] keeps its
    default, [u.arcsec]. *)
Definition from_fits_bintable (bintable : BinTableHDU) : M Beams :=
  (majors <- lift (column_quantity bintable "BMAJ") ;;
   minors <- lift (column_quantity bintable "BMIN") ;;
   pas <- lift (column_quantity bintable "BPA") ;;
   meta <- lift (mapM (fun row => d <~ row_meta (columns_names bintable) row
                                          (columns_names bintable) ∅ ;;
                                  inr (PyDict d))
                      (data bintable)) ;;
   Beams_new majors minors pas PyNone arcsec (PyList meta))%py.


(** The object [Beams.__new__] returns: the area array and the five
    attributes it assigns. *)
Definition built (a : ndarray) (majors minors pas : pyval) (default_unit : Unit)
    (meta : pyval) : Beams :=
  store "_meta" meta
    (store "default_unit" (PyUnit default_unit)
       (store "pas" pas
          (store "minors" minors
             (store "majors" majors (mkBeams a sr ∅))))).

(** The unit a Quantity in [un] has after the unit check. *)
Definition coerced (un : Unit) : Unit :=
  if is_equivalent deg un then un else UMul un deg.

(** The zero-dimensional zero that [np.zeros_like(None) * u.deg] evaluates
    to. *)
Definition scalar_zero : pyval := PyQuantity (NdScalar 0) deg.

(** The axis [np.sqrt(area / (2 * np.pi)) * SIGMA_TO_FWHM] of the round beam
    of a given area. *)
Definition round_axis (area : float) : float :=
  (PrimFloat.sqrt (area / two_pi) * SIGMA_TO_FWHM)%float.

(** A table in which every row has one cell per column. *)
Definition table_wf (t : BinTableHDU) : Prop :=
  Forall (fun row => length row = length (columns_names t)) (data t).

(** ** Laws of the two monads *)

Lemma bind_inr {A B} (m : M A) (f : A -> M B) (w : list string) (b : B) :
  bind m f = (w, inr b) ->
  exists w1 a w2, m = (w1, inr a) /\ f a = (w2, inr b) /\ w = (w1 ++ w2)%list.
Proof.
  destruct m as [w1 [e | a]]; simpl; [discriminate |].
  destruct (f a) as [w2 r] eqn:E.
  intros [= <- ->]. eauto 7.
Qed.

Lemma bind_lift_inr {A B} (a : A) (f : A -> M B) : bind (lift (inr a)) f = f a.
Proof. unfold bind, lift. destruct (f a). reflexivity. Qed.

Lemma bind_ret {A B} (a : A) (f : A -> M B) : bind (ret a) f = f a.
Proof. apply bind_lift_inr. Qed.

Lemma bind_nil_inr {A B} (a : A) (f : A -> M B) : bind ([], inr a) f = f a.
Proof. apply bind_lift_inr. Qed.

(** Runs the steps of a computation of [M] whose outcome is known. *)
Ltac run :=
  repeat first
    [ progress cbn [is_None fst snd negb py_len get_value get_unit as_array rbind
                    true_divide np_sqrt mul_unit mul_float zeros_like nd_map map]
    | rewrite bind_ret
    | rewrite bind_lift_inr
    | rewrite bind_nil_inr ].

Lemma lift_inr {A} (r : res A) (w : list string) (a : A) :
  lift r = (w, inr a) -> r = inr a /\ w = [].
Proof. unfold lift. intros [= <- ->]. auto. Qed.

Lemma map_const_replicate {A B} (c : B) (xs : list A) :
  map (fun _ => c) xs = replicate (length xs) c.
Proof. induction xs as [| x xs IH]; simpl; [reflexivity | now rewrite IH]. Qed.

(** ** The pieces of the constructor *)

(** A value that passes the unit check is a Quantity, and keeps its array. *)
Lemma in_degrees_inr (what : string) (v v' : pyval) (w : list string) :
  in_degrees what v = (w, inr v') ->
  exists a un,
    v = PyQuantity a un /\ v' = PyQuantity a (coerced un) /\
    w = if is_equivalent deg un then []
        else ["Assuming " ++ what ++ " has been specified in degrees"].
Proof.
  unfold in_degrees, coerced.
  destruct v; try discriminate.
  cbn [get_unit]. rewrite bind_lift_inr.
  destruct (is_equivalent deg u) eqn:E.
  - intros [= <- <-]. exists a, u. now rewrite E.
  - simpl. intros [= <- <-]. exists a, u. now rewrite E.
Qed.

(** A unit of angle needs no coercion and raises no warning. *)
Lemma in_degrees_angle (what : string) (a : ndarray) (un : Unit) :
  is_equivalent deg un = true ->
  in_degrees what (PyQuantity a un) = ([], inr (PyQuantity a un)).
Proof. intros H. unfold in_degrees. simpl. rewrite H. reflexivity. Qed.

(** What the area block hands on: position angles that are zeros shaped like
    [areas]. *)
Lemma from_areas_inr (areas majors minors pas : pyval) (w : list string) :
  from_areas areas = (w, inr (majors, minors, pas)) ->
  w = [] /\ is_None pas = false /\ is_None majors = false /\ is_None minors = false /\
  exists z un, pas = PyQuantity z un /\
    forall n, py_len pas = inr n ->
      py_len areas = inr n /\ z = NdVec (replicate n 0%float).
Proof.
  unfold from_areas.
  destruct areas as [| b | k | x | s | s1 s2 s3 | xs | d | un | [x | xs] | bs | [x | xs] un];
    simpl; try discriminate;
    intros [= <- <- <- <-]; repeat split; eexists _, _; (split; [reflexivity |]);
    simpl; intros n; try discriminate; intros [= <-].
  - rewrite length_map. split; [reflexivity |]. now rewrite map_const_replicate.
  - rewrite !length_map. split; [reflexivity |].
    rewrite map_map. simpl. now rewrite map_const_replicate.
  - rewrite length_map. split; [reflexivity |]. now rewrite map_const_replicate.
Qed.

Lemma Beams_len_store_other (name : string) (v : pyval) (self : Beams) :
  name <> "majors" -> Beams_len (store name v self) = Beams_len self.
Proof.
  intros Hne. unfold Beams_len, getattr, store. simpl.
  now rewrite lookup_insert_ne.
Qed.

Lemma Beams_len_store_majors (v : pyval) (self : Beams) :
  Beams_len (store "majors" v self) = py_len v.
Proof.
  unfold Beams_len, getattr, store. simpl.
  now rewrite lookup_insert_eq.
Qed.

Lemma Beams_len_built (a : ndarray) (majors minors pas meta : pyval) (du : Unit) :
  Beams_len (built a majors minors pas du meta) = py_len majors.
Proof.
  unfold built.
  rewrite !Beams_len_store_other by discriminate.
  apply Beams_len_store_majors.
Qed.

(** The setter succeeds only with a value as long as the collection, and
    then stores it under [_meta]. *)
Lemma assign_meta_inr (v : pyval) (self self' : Beams) (w : list string) :
  assign_meta v self = (w, inr self') ->
  w = [] /\ self' = store "_meta" v self /\
  exists n, py_len v = inr n /\ Beams_len self = inr n.
Proof.
  unfold assign_meta, meta_setter, st_bind, st_lift, st_read, st_store, st_raise.
  destruct (py_len v) as [e | lv]; [discriminate |].
  destruct (Beams_len self) as [e | ls]; [discriminate |].
  destruct (Nat.eqb lv ls) eqn:E; [| discriminate].
  apply Nat.eqb_eq in E. subst ls.
  intros [= <- <-]. eauto.
Qed.

Lemma assign_meta_ok (v : pyval) (self : Beams) (n : nat) :
  py_len v = inr n -> Beams_len self = inr n ->
  assign_meta v self = ([], inr (store "_meta" v self)).
Proof.
  intros Hv Hs.
  unfold assign_meta, meta_setter, st_bind, st_lift, st_read, st_store, st_raise.
  rewrite Hv, Hs, Nat.eqb_refl. reflexivity.
Qed.

(** Every object the constructor returns: its shape, and what is known of the
    lengths of its attributes. *)
Lemma Beams_new_inv (majors0 minors0 pas0 areas : pyval) (du : Unit)
    (meta0 : pyval) (w : list string) (self : Beams) :
  Beams_new majors0 minors0 pas0 areas du meta0 = (w, inr self) ->
  exists a majors minors pas meta n,
    self = built a majors minors pas du meta /\
    py_len majors = inr n /\ py_len minors = inr n /\ py_len meta = inr n /\
    (is_None meta0 = false -> meta = meta0) /\
    (is_None areas = true ->
       exists z un, majors0 = PyQuantity z un /\ majors = PyQuantity z (coerced un)) /\
    (is_None areas = true -> is_None minors0 = true -> minors = majors) /\
    (is_None areas = true -> is_None pas0 = true -> pas = scalar_zero) /\
    (is_None areas = true -> is_None pas0 = false -> py_len pas = inr n) /\
    (is_None areas = false ->
       exists un, pas = PyQuantity (NdVec (replicate n 0%float)) un /\
                  py_len areas = inr n).
Proof.
  unfold Beams_new. intros H.
  apply bind_inr in H as (w1 & [[ma mi] pa] & w2 & Hg & H & ->).
  cbn [fst snd] in H.
  apply bind_inr in H as (w3 & majors & w4 & Hmaj & H & ->).
  apply bind_inr in H as (w5 & minors1 & w6 & Hmin1 & H & ->).
  apply bind_inr in H as (w7 & pas & w8 & Hpas & H & ->).
  apply bind_inr in H as (w9 & minors & w10 & Hmin & H & ->).
  apply bind_inr in H as (w11 & area & w12 & Harea & H & ->).
  apply bind_inr in H as (w13 & v & w14 & Hv & H & ->).
  apply bind_inr in H as (w15 & a & w16 & Ha & H & ->).
  fold (built a majors minors pas du) in H.
  set (self0 := store "default_unit" _ _) in H.
  assert (Hlen0 : Beams_len self0 = py_len majors).
  { unfold self0. rewrite !Beams_len_store_other by discriminate.
    apply Beams_len_store_majors. }
  assert (Hmeta : exists meta n, self = store "_meta" meta self0 /\
            py_len meta = inr n /\ py_len majors = inr n /\
            (is_None meta0 = false -> meta = meta0)).
  { destruct (is_None meta0) eqn:Em.
    - apply bind_inr in H as (w17 & n & w18 & Hn & H & ->).
      apply lift_inr in Hn as [Hn _].
      apply assign_meta_inr in H as (_ & -> & k & Hk & Hk').
      rewrite Hlen0 in Hn, Hk'.
      eexists _, k. repeat split; try eassumption. discriminate.
    - apply assign_meta_inr in H as (_ & -> & k & Hk & Hk').
      rewrite Hlen0 in Hk'.
      eexists _, k. repeat split; try eassumption. }
  destruct Hmeta as (meta & n & -> & Hlmeta & Hlmaj & Hmeta0).
  assert (Hlmin : py_len minors = inr n /\ (is_None minors1 = true -> minors = majors)).
  { destruct (is_None minors1) eqn:E1.
    - injection Hmin as <- <-. auto.
    - apply bind_inr in Hmin as (? & lmin & ? & Hl1 & Hmin & ->).
      apply lift_inr in Hl1 as [Hl1 _].
      apply bind_inr in Hmin as (? & lmaj & ? & Hl2 & Hmin & ->).
      apply lift_inr in Hl2 as [Hl2 _].
      destruct (Nat.eqb lmin lmaj) eqn:E; simpl in Hmin; [| discriminate].
      injection Hmin as <- <-.
      apply Nat.eqb_eq in E. subst lmaj.
      split; [congruence | discriminate]. }
  destruct Hlmin as [Hlmin Hcirc].
  assert (Hp : (is_None pa = true -> pas = scalar_zero) /\
               (is_None pa = false ->
                  py_len pa = inr n /\
                  exists z un, pa = PyQuantity z un /\ pas = PyQuantity z (coerced un))).
  { destruct (is_None pa) eqn:Ep.
    - destruct pa; try discriminate. simpl in Hpas.
      injection Hpas as <- <-. split; [reflexivity | discriminate].
    - apply bind_inr in Hpas as (? & lp & ? & Hl1 & Hpas & ->).
      apply lift_inr in Hl1 as [Hl1 _].
      apply bind_inr in Hpas as (? & lm & ? & Hl2 & Hpas & ->).
      apply lift_inr in Hl2 as [Hl2 _].
      destruct (Nat.eqb lp lm) eqn:E; simpl in Hpas; [| discriminate].
      apply Nat.eqb_eq in E. subst lm.
      apply in_degrees_inr in Hpas as (z & un & -> & -> & _).
      split; [discriminate |]. intros _. split; [congruence | eauto]. }
  destruct Hp as [Hp0 Hp1].
  exists a, majors, minors, pas, meta, n.
  split; [reflexivity |]. do 4 (split; [assumption |]).
  destruct (is_None areas) eqn:Ea.
  - injection Hg as <- <- <- <-.
    split; [| split; [| split; [| split]]].
    + intros _. destruct (is_None majors0) eqn:E0.
      * injection Hmaj as <- <-. destruct majors0; discriminate.
      * apply in_degrees_inr in Hmaj as (z & un & -> & -> & _). eauto.
    + intros _ E. rewrite E in Hmin1. injection Hmin1 as <- <-.
      apply Hcirc. exact E.
    + intros _. exact Hp0.
    + intros _ E. destruct (Hp1 E) as (Hl & z & un & -> & ->).
      exact Hl.
    + discriminate.
  - repeat (split; [discriminate |]). intros _.
    apply from_areas_inr in Hg as (-> & En & _ & _ & z & un & -> & Hz).
    destruct (Hp1 En) as (Hl & z' & un1 & [= <- <-] & ->).
    destruct (Hz n Hl) as [Hla ->]. eauto.
Qed.

(** ** Reading the attributes of a constructed object *)

Lemma getattr_built_majors a majors minors pas du meta :
  getattr (built a majors minors pas du meta) "majors" = inr majors.
Proof.
  unfold getattr, built, store. simpl.
  rewrite !lookup_insert_ne by discriminate. now rewrite lookup_insert_eq.
Qed.

Lemma getattr_built_minors a majors minors pas du meta :
  getattr (built a majors minors pas du meta) "minors" = inr minors.
Proof.
  unfold getattr, built, store. simpl.
  rewrite !lookup_insert_ne by discriminate. now rewrite lookup_insert_eq.
Qed.

Lemma getattr_built_pas a majors minors pas du meta :
  getattr (built a majors minors pas du meta) "pas" = inr pas.
Proof.
  unfold getattr, built, store. simpl.
  rewrite !lookup_insert_ne by discriminate. now rewrite lookup_insert_eq.
Qed.

Lemma getattr_built_meta a majors minors pas du meta :
  getattr (built a majors minors pas du meta) "meta" = inr meta.
Proof.
  unfold getattr, meta_getter, built, store. simpl.
  now rewrite lookup_insert_eq.
Qed.

(** The constructor assigns [majors], [minors] and [pas]; no attribute is
    called [major]. *)
Lemma getattr_built_major a majors minors pas du meta :
  getattr (built a majors minors pas du meta) "major" = inl (AttributeError "major").
Proof.
  unfold getattr, built, store. simpl.
  rewrite !lookup_insert_ne by discriminate. now rewrite lookup_empty.
Qed.

(** X1: whenever position angles reach the length check, a successful
    construction leaves four sequences of one length. *)
Lemma Beams_new_lengths (majors minors pas areas : pyval) (du : Unit)
    (meta : pyval) (w : list string) (self : Beams) :
  Beams_new majors minors pas areas du meta = (w, inr self) ->
  is_None areas = false \/ is_None pas = false ->
  exists n,
    Beams_len self = inr n /\
    (v <~ getattr self "majors" ;; py_len v)%py = inr n /\
    (v <~ getattr self "minors" ;; py_len v)%py = inr n /\
    (v <~ getattr self "pas" ;; py_len v)%py = inr n /\
    (v <~ getattr self "meta" ;; py_len v)%py = inr n.
Proof.
  intros H Hp.
  apply Beams_new_inv in H
    as (a & ma & mi & pa & me & n & -> & Hma & Hmi & Hme & _ & _ & _ & Hp0 & Hp1 & Hp2).
  exists n.
  rewrite Beams_len_built, getattr_built_majors, getattr_built_minors,
    getattr_built_pas, getattr_built_meta. simpl.
  repeat split; try assumption.
  destruct (is_None areas) eqn:Ea.
  - destruct Hp as [Hp | Hp]; [discriminate |]. now apply Hp1.
  - destruct (Hp2 eq_refl) as (un & -> & _). simpl. now rewrite length_replicate.
Qed.

(** A full set of arguments with units of angle and one length is stored as
    it is, with no warning. *)
Lemma Beams_new_explicit (xs ys zs : list float) (u1 u2 u3 : Unit) (du : Unit)
    (ms : list pyval) (area : ndarray) (un : Unit) :
  is_equivalent deg u1 = true ->
  is_equivalent deg u2 = true ->
  is_equivalent deg u3 = true ->
  length ys = length xs ->
  length zs = length xs ->
  length ms = length xs ->
  _to_area (PyQuantity (NdVec xs) u1) (PyQuantity (NdVec ys) u2)
    = inr (PyQuantity area un) ->
  Beams_new (PyQuantity (NdVec xs) u1) (PyQuantity (NdVec ys) u2)
      (PyQuantity (NdVec zs) u3) PyNone du (PyList ms)
    = ([], inr (built area (PyQuantity (NdVec xs) u1) (PyQuantity (NdVec ys) u2)
                  (PyQuantity (NdVec zs) u3) du (PyList ms))).
Proof.
  intros H1 H2 H3 Hy Hz Hm Ha.
  unfold Beams_new. run.
  rewrite !in_degrees_angle by assumption. run.
  rewrite Hz, Hy, Nat.eqb_refl. run.
  rewrite Ha. run.
  fold (built area (PyQuantity (NdVec xs) u1) (PyQuantity (NdVec ys) u2)
          (PyQuantity (NdVec zs) u3) du).
  erewrite assign_meta_ok; [reflexivity | simpl; now rewrite Hm |].
  rewrite !Beams_len_store_other by discriminate.
  now rewrite Beams_len_store_majors.
Qed.


(** ** The constructor *)

(** C1: the lengths of [majors], [minors], [pas] and [meta] are all claimed
    to equal the length of the collection, also when [pas] is omitted.  In
    every successful construction without [pas] and without [areas], the
    lengths of [majors], [minors] and [meta] do equal [len(self)], but the
    stored [pas] is [np.zeros_like(None) * u.deg], a zero-dimensional value:
    [len(pas)] raises [TypeError]. *)
Theorem Beams_new_default_pas_unsized (majors minors : pyval) (du : Unit)
    (meta : pyval) (w : list string) (self : Beams) :
  Beams_new majors minors PyNone PyNone du meta = (w, inr self) ->
  exists n,
    Beams_len self = inr n /\
    (v <~ getattr self "majors" ;; py_len v)%py = inr n /\
    (v <~ getattr self "minors" ;; py_len v)%py = inr n /\
    (v <~ getattr self "meta" ;; py_len v)%py = inr n /\
    (v <~ getattr self "pas" ;; py_len v)%py = inl (TypeError "len() of unsized object").
Proof.
  intros H.
  apply Beams_new_inv in H
    as (a & ma & mi & pa & me & n & -> & Hma & Hmi & Hme & _ & _ & _ & Hp0 & _).
  exists n.
  rewrite Beams_len_built, getattr_built_majors, getattr_built_minors,
    getattr_built_pas, getattr_built_meta. simpl.
  repeat split; try assumption.
  now rewrite (Hp0 eq_refl eq_refl).
Qed.

(** C2: with both an explicit major-axis sequence and [areas], the stored
    axes are claimed to be the explicit ones.  The area block runs first and
    overwrites [majors] and [minors]: for majors [1, 2] deg, minors
    [0.5, 1] deg and areas [1, 1], both stored axes are the round-beam axis
    of area 1, twice. *)
Theorem Beams_new_areas_override_axes (du : Unit) (area : ndarray) (un : Unit) :
  _to_area (PyQuantity (NdVec [round_axis 1; round_axis 1]) deg)
           (PyQuantity (NdVec [round_axis 1; round_axis 1]) deg)
    = inr (PyQuantity area un) ->
  exists self,
    Beams_new (PyQuantity (NdVec [1; 2]%float) deg)
              (PyQuantity (NdVec [0.5; 1]%float) deg)
              PyNone (PyArray (NdVec [1; 1]%float)) du PyNone = ([], inr self) /\
    getattr self "majors" = inr (PyQuantity (NdVec [round_axis 1; round_axis 1]) deg) /\
    getattr self "minors" = inr (PyQuantity (NdVec [round_axis 1; round_axis 1]) deg) /\
    getattr self "majors" <> inr (PyQuantity (NdVec [1; 2]%float) deg) /\
    getattr self "minors" <> inr (PyQuantity (NdVec [0.5; 1]%float) deg).
Proof.
  intros Ha.
  exists (built area (PyQuantity (NdVec [round_axis 1; round_axis 1]) deg)
            (PyQuantity (NdVec [round_axis 1; round_axis 1]) deg)
            (PyQuantity (NdVec [0; 0]%float) deg) du
            (PyList [PyDict ∅; PyDict ∅])).
  rewrite getattr_built_majors, getattr_built_minors.
  split.
  - unfold Beams_new, from_areas.
    run.
    rewrite !in_degrees_angle by reflexivity. run.
    cbn [length Nat.eqb]. run.
    unfold round_axis in Ha. rewrite Ha. run.
    rewrite !Beams_len_store_other by discriminate.
    rewrite Beams_len_store_majors. run. cbn [length].
    erewrite assign_meta_ok; [reflexivity | reflexivity |].
    rewrite !Beams_len_store_other by discriminate.
    now rewrite Beams_len_store_majors.
  - split; [reflexivity |]. split; [reflexivity |].
    split; intros E; injection E as E1 E2; rewrite E1 in E2;
      apply (f_equal (fun x => PrimFloat.eqb x 1)) in E2;
      vm_compute in E2; discriminate.
Qed.

(** C4: with only a major-axis sequence supplied, [minors] is claimed to
    equal [majors] and [pas] to be a sequence of zeros of the same length.
    The stored [minors] is the stored [majors], which carries the array that
    was supplied; the stored [pas] is the zero-dimensional zero, which is no
    sequence of any length. *)
Theorem Beams_new_majors_only (majors : pyval) (du : Unit) (meta : pyval)
    (w : list string) (self : Beams) :
  Beams_new majors PyNone PyNone PyNone du meta = (w, inr self) ->
  (exists z un,
     majors = PyQuantity z un /\
     getattr self "majors" = inr (PyQuantity z (coerced un)) /\
     getattr self "minors" = inr (PyQuantity z (coerced un))) /\
  getattr self "pas" = inr scalar_zero /\
  forall (zeros : list float) (un : Unit),
    getattr self "pas" <> inr (PyQuantity (NdVec zeros) un).
Proof.
  intros H.
  apply Beams_new_inv in H
    as (a & ma & mi & pa & me & n & -> & _ & _ & _ & _ & Hmaj & Hmin & Hp0 & _).
  rewrite getattr_built_majors, getattr_built_minors, getattr_built_pas.
  rewrite (Hmin eq_refl eq_refl), (Hp0 eq_refl eq_refl).
  destruct (Hmaj eq_refl) as (z & un & -> & ->).
  split; [eauto 6 |]. split; [reflexivity |].
  intros zeros un0. unfold scalar_zero. discriminate.
Qed.

(** C9: when [areas] is supplied, the position angles the caller passed are
    discarded: whatever they were, the result is the one obtained without
    them, and the stored [pas] is a sequence of zeros, one per area. *)
Theorem Beams_new_areas_discard_pas (majors minors pas areas : pyval) (du : Unit)
    (meta : pyval) (w : list string) (self : Beams) :
  is_None areas = false ->
  Beams_new majors minors pas areas du meta = (w, inr self) ->
  (forall pas', Beams_new majors minors pas' areas du meta = (w, inr self)) /\
  exists n un,
    py_len areas = inr n /\
    getattr self "pas" = inr (PyQuantity (NdVec (replicate n 0%float)) un).
Proof.
  intros Ha H. split.
  - intros pas'. rewrite <- H. unfold Beams_new. now rewrite Ha.
  - apply Beams_new_inv in H
      as (a & ma & mi & pa & me & n & -> & _ & _ & _ & _ & _ & _ & _ & _ & Hp).
    destruct (Hp Ha) as (un & -> & Hl).
    exists n, un. split; [exact Hl | apply getattr_built_pas].
Qed.

(** C5: bare numeric major axes are claimed to be accepted with a warning.
    A numpy array and a Python list have no [unit] attribute, so the unit
    check [majors.unit] raises [AttributeError] before any warning is
    issued, whatever the other arguments are. *)
Theorem Beams_new_bare_majors_raise (a : ndarray) (xs : list pyval)
    (minors pas : pyval) (du : Unit) (meta : pyval) :
  Beams_new (PyArray a) minors pas PyNone du meta = ([], inl (AttributeError "unit")) /\
  Beams_new (PyList xs) minors pas PyNone du meta = ([], inl (AttributeError "unit")).
Proof. split; reflexivity. Qed.

(** ** Indexing *)

(** C3: [collection[i]] is claimed to return the beam at position [i].  For
    every object the constructor returns and every int or slice index, the
    lookup of [self.major] fails, because the constructor stored the axes
    under [majors]: indexing raises [AttributeError]. *)
Theorem getitem_int_raises (majors minors pas areas : pyval) (du : Unit)
    (meta : pyval) (w : list string) (self : Beams) (view : pyval) :
  Beams_new majors minors pas areas du meta = (w, inr self) ->
  isinstance_int_slice view = true ->
  getitem self view = inl (AttributeError "major").
Proof.
  intros H Hv.
  apply Beams_new_inv in H as (a & ma & mi & pa & me & n & -> & _).
  unfold getitem. rewrite Hv, getattr_built_major. reflexivity.
Qed.

(** C7: an index that is neither an int, nor a slice, nor an array is
    claimed to raise a type error.  [__getitem__] has no branch for it: the
    call returns [None] and raises nothing. *)
Theorem getitem_other_returns_None (self : Beams) (view : pyval) :
  isinstance_int_slice view = false ->
  isinstance_ndarray view = false ->
  getitem self view = inr None.
Proof. intros H1 H2. unfold getitem. now rewrite H1, H2. Qed.

(** ** The metadata setter *)

(** C6: on a collection of length [n], assigning a sequence [v] of length
    [m] to [meta] succeeds exactly when [m = n], and then [meta] reads back
    as [v]; otherwise it raises [TypeError] and the object is the one before
    the assignment. *)
Theorem meta_setter_guard (self : Beams) (v : pyval) (n m : nat) :
  Beams_len self = inr n ->
  py_len v = inr m ->
  (m = n <-> fst (meta_setter v self) = inr tt) /\
  (m = n -> getattr (snd (meta_setter v self)) "meta" = inr v) /\
  (m <> n ->
     meta_setter v self =
       (inl (TypeError "metadata must be a list of dictionaries"), self)).
Proof.
  intros Hs Hv.
  unfold meta_setter, st_bind, st_lift, st_read, st_store, st_raise.
  rewrite Hv, Hs.
  destruct (Nat.eqb m n) eqn:E.
  - apply Nat.eqb_eq in E. subst m. simpl.
    split; [split; reflexivity |]. split.
    + intros _. unfold getattr, meta_getter, store. simpl.
      now rewrite lookup_insert_eq.
    + intros Hne. now destruct Hne.
  - apply Nat.eqb_neq in E. simpl.
    split; [split; [intros Heq; now destruct E | discriminate] |].
    split; [intros Heq; now destruct E | reflexivity].
Qed.

(** C10: the setter looks at the length of the assigned value only: any
    value whose length is the length of the collection is stored as it is,
    whatever its items are. *)
Theorem meta_setter_checks_length_only (self : Beams) (v : pyval) (n : nat) :
  Beams_len self = inr n ->
  py_len v = inr n ->
  meta_setter v self = (inr tt, store "_meta" v self) /\
  getattr (store "_meta" v self) "meta" = inr v.
Proof.
  intros Hs Hv.
  unfold meta_setter, st_bind, st_lift, st_read, st_store, st_raise.
  rewrite Hv, Hs, Nat.eqb_refl. split; [reflexivity |].
  unfold getattr, meta_getter, store. simpl. now rewrite lookup_insert_eq.
Qed.

(** ** The table adapter *)

Lemma field_index_elem (names : list string) (key : string) :
  key ∈ names ->
  exists i, field_index names key = Some i /\ i < length names.
Proof.
  induction names as [| name names IH]; intros Hin.
  - apply elem_of_nil in Hin. contradiction.
  - simpl. destruct (String.eqb name key) eqn:E.
    + exists 0. split; [reflexivity | lia].
    + apply elem_of_cons in Hin as [-> | Hin].
      * rewrite String.eqb_refl in E. discriminate.
      * destruct (IH Hin) as (i & -> & Hi). exists (S i).
        split; [reflexivity | lia].
Qed.

Lemma row_getitem_ok (names : list string) (row : list pyval) (key : string) :
  length row = length names ->
  key ∈ names ->
  exists v, row_getitem names row key = inr v.
Proof.
  intros Hlen Hin. unfold row_getitem.
  destruct (field_index_elem names key Hin) as (i & -> & Hi).
  destruct (lookup_lt_is_Some_2 row i) as [v ->]; [lia | eauto].
Qed.

Lemma excluded_spec (key : string) :
  excluded key = true <-> key ∈ ["BMAJ"; "BMIN"; "BPA"].
Proof.
  unfold excluded. rewrite !orb_true_iff, !String.eqb_eq.
  rewrite !elem_of_cons, elem_of_nil. tauto.
Qed.

(** The dictionary comprehension: the keys visited and not excluded are bound
    to the cells of the row, the others keep what they had. *)
Lemma row_meta_spec (names : list string) (row : list pyval) (keys : list string) :
  length row = length names ->
  (forall key, key ∈ keys -> key ∈ names) ->
  forall acc, exists d,
    row_meta names row keys acc = inr d /\
    forall key,
      (key ∈ keys -> excluded key = false ->
         exists v, row_getitem names row key = inr v /\ d !! key = Some v) /\
      (key ∉ keys \/ excluded key = true -> d !! key = acc !! key).
Proof.
  intros Hlen. induction keys as [| k keys IH]; intros Hsub acc.
  - exists acc. split; [reflexivity |]. intros key. split.
    + intros Hin. apply elem_of_nil in Hin. contradiction.
    + reflexivity.
  - assert (Hsub' : forall key, key ∈ keys -> key ∈ names).
    { intros key Hk. apply Hsub. now apply elem_of_cons; right. }
    simpl. destruct (excluded k) eqn:Ek.
    + destruct (IH Hsub' acc) as (d & Hd & Hspec).
      exists d. split; [exact Hd |]. intros key.
      destruct (Hspec key) as [Hin Hout]. split.
      * intros Hk Hex. apply elem_of_cons in Hk as [-> | Hk]; [congruence | auto].
      * intros [Hk | Hex]; apply Hout; [left | right; exact Hex].
        intros Hk'. apply Hk. now apply elem_of_cons; right.
    + destruct (row_getitem_ok names row k Hlen) as [v Hv].
      { apply Hsub. now apply elem_of_cons; left. }
      rewrite Hv. simpl.
      destruct (IH Hsub' (<[k := v]> acc)) as (d & Hd & Hspec).
      exists d. split; [exact Hd |]. intros key.
      destruct (Hspec key) as [Hin Hout]. split.
      * intros Hk Hex. destruct (decide (key ∈ keys)) as [Hk' | Hk']; [auto |].
        apply elem_of_cons in Hk as [-> | Hk]; [| contradiction].
        exists v. split; [exact Hv |].
        rewrite Hout by (left; exact Hk'). apply lookup_insert_eq.
      * intros Hor. assert (Hne : k <> key).
        { intros ->. destruct Hor as [Hk | Hex]; [| congruence].
          apply Hk. now apply elem_of_cons; left. }
        assert (Hor' : key ∉ keys \/ excluded key = true).
        { destruct Hor as [Hk | Hex]; [left | right; exact Hex].
          intros Hk'. apply Hk. now apply elem_of_cons; right. }
        rewrite (Hout Hor'). now apply lookup_insert_ne.
Qed.

Lemma mapM_lookup {A B} (f : A -> res B) (xs : list A) (ys : list B) :
  mapM f xs = inr ys ->
  length ys = length xs /\
  forall i x, xs !! i = Some x -> exists y, ys !! i = Some y /\ f x = inr y.
Proof.
  revert ys. induction xs as [| x xs IH]; intros ys; simpl.
  - intros [= <-]. split; [reflexivity |]. intros i x Hi. discriminate.
  - destruct (f x) as [e | y] eqn:Ef; simpl; [discriminate |].
    destruct (mapM f xs) as [e | ys'] eqn:Em; simpl; [discriminate |].
    intros [= <-]. destruct (IH ys' eq_refl) as [Hl Hi].
    split; [simpl; now rewrite Hl |].
    intros [| i] x0 Hx; simpl in *.
    + injection Hx as <-. eauto.
    + apply Hi. exact Hx.
Qed.

Lemma mapM_total {A B} (f : A -> res B) (xs : list A) :
  Forall (fun x => exists y, f x = inr y) xs ->
  exists ys, mapM f xs = inr ys.
Proof.
  induction 1 as [| x xs [y Hy] _ [ys Hys]]; simpl.
  - eauto.
  - rewrite Hy, Hys. simpl. eauto.
Qed.

Lemma as_numbers_length (vs : list pyval) (fs : list float) :
  as_numbers vs = Some fs -> length fs = length vs.
Proof.
  revert fs. induction vs as [| v vs IH]; intros fs; simpl.
  - intros [= <-]. reflexivity.
  - destruct (as_number v); [| discriminate].
    destruct (as_numbers vs) as [fs' |]; [| discriminate].
    intros [= <-]. simpl. now rewrite (IH fs' eq_refl).
Qed.

(** A column read as a Quantity is a vector in arcsec with one entry per
    row. *)
Lemma column_quantity_inr (t : BinTableHDU) (key : string) (q : pyval) :
  column_quantity t key = inr q ->
  exists fs, q = PyQuantity (NdVec fs) arcsec /\ length fs = length (data t).
Proof.
  unfold column_quantity, data_getitem.
  destruct (field_index (columns_names t) key); [| discriminate].
  destruct (mapM _ (data t)) as [e | cells] eqn:Em; simpl; [discriminate |].
  destruct (as_numbers cells) as [fs |] eqn:En; simpl; [| discriminate].
  intros [= <-]. exists fs. split; [reflexivity |].
  apply as_numbers_length in En. apply mapM_lookup in Em as [Hl _]. congruence.
Qed.

(** C8: for a table with columns BMAJ, BMIN and BPA and any further columns,
    the adapter builds a collection with one metadata dictionary per row, in
    row order; the keys of a row's dictionary are exactly the column names
    other than BMAJ, BMIN and BPA, and each key is bound to that row's cell
    of that column. *)
Theorem from_fits_bintable_meta (t : BinTableHDU) (majors minors pas : pyval)
    (area : ndarray) (un : Unit) :
  table_wf t ->
  column_quantity t "BMAJ" = inr majors ->
  column_quantity t "BMIN" = inr minors ->
  column_quantity t "BPA" = inr pas ->
  _to_area majors minors = inr (PyQuantity area un) ->
  exists self metas,
    from_fits_bintable t = ([], inr self) /\
    getattr self "majors" = inr majors /\
    getattr self "minors" = inr minors /\
    getattr self "pas" = inr pas /\
    getattr self "meta" = inr (PyList metas) /\
    length metas = length (data t) /\
    forall i row, data t !! i = Some row ->
      exists d, metas !! i = Some (PyDict d) /\
        (forall key, is_Some (d !! key) <->
           key ∈ columns_names t /\ key ∉ ["BMAJ"; "BMIN"; "BPA"]) /\
        (forall key v, d !! key = Some v ->
           row_getitem (columns_names t) row key = inr v).
Proof.
  intros Hwf Hmaj Hmin Hpa Harea.
  set (mk := fun row => (d <~ row_meta (columns_names t) row (columns_names t) ∅ ;;
                         inr (PyDict d))%py).
  assert (Hrows : Forall (fun row => exists y, mk row = inr y) (data t)).
  { eapply Forall_impl; [exact Hwf |]. intros row Hlen. unfold mk.
    destruct (row_meta_spec _ row (columns_names t) Hlen (fun _ H => H) ∅)
      as (d & -> & _). simpl. eauto. }
  destruct (mapM_total mk (data t) Hrows) as [metas Hmetas].
  destruct (mapM_lookup mk _ _ Hmetas) as [Hlen Hith].
  destruct (column_quantity_inr _ _ _ Hmaj) as (xs & -> & Hxs).
  destruct (column_quantity_inr _ _ _ Hmin) as (ys & -> & Hys).
  destruct (column_quantity_inr _ _ _ Hpa) as (zs & -> & Hzs).
  eexists _, metas. split; [| split; [| split; [| split; [| split; [| split; [exact Hlen |]]]]]].
  - unfold from_fits_bintable. rewrite Hmaj, Hmin, Hpa. fold mk. rewrite Hmetas.
    run. apply Beams_new_explicit with (un := un);
      try reflexivity; try congruence. exact Harea.
  - apply getattr_built_majors.
  - apply getattr_built_minors.
  - apply getattr_built_pas.
  - apply getattr_built_meta.
  - intros i row Hrow.
    destruct (Hith i row Hrow) as (y & Hy & Hmk). unfold mk in Hmk.
    assert (Hlenrow : length row = length (columns_names t)).
    { eapply (Forall_lookup_1 _ _ _ _ Hwf Hrow). }
    destruct (row_meta_spec _ row (columns_names t) Hlenrow (fun _ H => H) ∅)
      as (d & Hd & Hspec).
    rewrite Hd in Hmk. simpl in Hmk. injection Hmk as <-.
    exists d. split; [exact Hy |]. split.
    + intros key. destruct (Hspec key) as [Hin Hout]. split.
      * intros [v Hv].
        destruct (decide (key ∈ columns_names t)) as [Hk | Hk].
        -- destruct (excluded key) eqn:Ex.
           ++ rewrite Hout, lookup_empty in Hv by (right; reflexivity). discriminate.
           ++ split; [exact Hk |]. intros Hbad.
              apply excluded_spec in Hbad. congruence.
        -- rewrite Hout, lookup_empty in Hv by (left; exact Hk). discriminate.
      * intros [Hk Hnot]. destruct (Hin Hk) as (v & _ & Hv); [| eauto].
        destruct (excluded key) eqn:Ex; [| reflexivity].
        exfalso. apply Hnot. now apply excluded_spec.
    + intros key v Hv. destruct (Hspec key) as [Hin Hout].
      destruct (decide (key ∈ columns_names t)) as [Hk | Hk].
      * destruct (excluded key) eqn:Ex.
        -- rewrite Hout, lookup_empty in Hv by (right; reflexivity). discriminate.
        -- destruct (Hin Hk eq_refl) as (v' & Hrow' & Hv'). congruence.
      * rewrite Hout, lookup_empty in Hv by (left; exact Hk). discriminate.
Qed.

(** ** Further properties of the constructor *)

Lemma snd_bind {A B} (m : M A) (f : A -> M B) :
  (bind m f).2 = match m.2 with inl e => inl e | inr a => (f a).2 end.
Proof.
  destruct m as [w [e | a]]; simpl; [reflexivity |].
  destruct (f a). reflexivity.
Qed.

Lemma fst_bind_inr {A B} (w : list string) (a : A) (f : A -> M B) :
  (bind (w, inr a) f).1 = (w ++ (f a).1)%list.
Proof. simpl. destruct (f a). reflexivity. Qed.

Lemma in_degrees_quantity (what : string) (a : ndarray) (un : Unit) :
  in_degrees what (PyQuantity a un) =
    (if is_equivalent deg un then []
     else ["Assuming " ++ what ++ " has been specified in degrees"],
     inr (PyQuantity a (coerced un))).
Proof.
  unfold in_degrees, coerced. cbn [get_unit]. rewrite bind_lift_inr.
  destruct (is_equivalent deg un); reflexivity.
Qed.

Lemma bind_ext {A B} (m : M A) (f g : A -> M B) :
  (forall a, f a = g a) -> bind m f = bind m g.
Proof.
  intros H. destruct m as [w [e | a]]; simpl; [reflexivity |]. now rewrite H.
Qed.

Lemma M_map_bind {A B C} (g : B -> C) (m : M A) (f : A -> M B) :
  M_map g (bind m f) = bind m (fun a => M_map g (f a)).
Proof.
  destruct m as [w [e | a]]; simpl; [reflexivity |].
  destruct (f a) as [w' [e | b]]; reflexivity.
Qed.

Lemma store_default_unit_twice (du du' : Unit) (v : pyval) (self : Beams) :
  store "default_unit" (PyUnit du')
    (store "_meta" v (store "default_unit" (PyUnit du) self))
  = store "_meta" v (store "default_unit" (PyUnit du') self).
Proof.
  unfold store. simpl. f_equal.
  rewrite insert_insert_ne by discriminate.
  now rewrite insert_insert_eq.
Qed.

Lemma assign_meta_default_unit (du du' : Unit) (v : pyval) (self : Beams) :
  assign_meta v (store "default_unit" (PyUnit du') self)
  = M_map (store "default_unit" (PyUnit du'))
      (assign_meta v (store "default_unit" (PyUnit du) self)).
Proof.
  unfold assign_meta, meta_setter, st_bind, st_lift, st_read, st_store, st_raise.
  rewrite !Beams_len_store_other by discriminate.
  destruct (py_len v) as [e | lv]; [reflexivity |].
  destruct (Beams_len self) as [e | ls]; [reflexivity |].
  destruct (Nat.eqb lv ls); [| reflexivity].
  unfold M_map, ret. simpl. now rewrite store_default_unit_twice.
Qed.

(** X3: [default_unit] is stored and never used: with another default
    unit the constructor warns, raises or succeeds in the same way, and the
    object differs in the attribute [default_unit] only. *)
Theorem Beams_new_default_unit_unused (majors minors pas areas : pyval)
    (du du' : Unit) (meta : pyval) :
  Beams_new majors minors pas areas du' meta
  = M_map (store "default_unit" (PyUnit du'))
      (Beams_new majors minors pas areas du meta).
Proof.
  unfold Beams_new.
  repeat (rewrite M_map_bind; apply bind_ext; intros ?).
  destruct (is_None meta).
  - rewrite M_map_bind. rewrite !Beams_len_store_other by discriminate.
    apply bind_ext. intros n. apply assign_meta_default_unit.
  - apply assign_meta_default_unit.
Qed.

(** Computes the outcome of a run of [M], dropping the log. *)
Ltac srun :=
  repeat first
    [ rewrite snd_bind
    | rewrite in_degrees_quantity
    | progress unfold ret, lift, raise
    | progress cbn [is_None fst snd negb py_len get_value get_unit as_array rbind
                    true_divide np_sqrt mul_unit mul_float zeros_like nd_map map] ].

(** X4: position angles that do not match the major axes in number are
    rejected with [ValueError], before the minor axes are compared and
    before any area is computed. *)
Theorem Beams_new_pas_length_mismatch (xs zs : list float) (u1 u3 : Unit)
    (minors : pyval) (du : Unit) (meta : pyval) :
  minors = PyNone \/ (exists b u2, minors = PyQuantity b u2) ->
  length zs <> length xs ->
  (Beams_new (PyQuantity (NdVec xs) u1) minors (PyQuantity (NdVec zs) u3)
     PyNone du meta).2
  = inl (ValueError
      "Number of position angles must match number of major axis lengths").
Proof.
  intros Hm Hne. apply Nat.eqb_neq in Hne.
  unfold Beams_new.
  destruct Hm as [-> | (b & u2 & ->)]; srun; now rewrite Hne.
Qed.

(** X5: minor axes that do not match the major axes in number are rejected
    with [ValueError], when the position angles are omitted or match. *)
Theorem Beams_new_minors_length_mismatch (xs ys : list float) (u1 u2 : Unit)
    (pas : pyval) (du : Unit) (meta : pyval) :
  pas = PyNone \/
    (exists zs u3, pas = PyQuantity (NdVec zs) u3 /\ length zs = length xs) ->
  length ys <> length xs ->
  (Beams_new (PyQuantity (NdVec xs) u1) (PyQuantity (NdVec ys) u2) pas
     PyNone du meta).2
  = inl (ValueError "Minor and major axes must have same number of values").
Proof.
  intros Hp Hne. apply Nat.eqb_neq in Hne.
  unfold Beams_new.
  destruct Hp as [-> | (zs & u3 & -> & Hz)]; srun.
  - now rewrite Hne.
  - rewrite Hz, Nat.eqb_refl. srun. now rewrite Hne.
Qed.




(** The steps of the constructor that follow the checks of its arguments
    raise no warning; an object they return holds the checked arguments. *)
Lemma Beams_new_tail (majors minors pas : pyval) (du : Unit) (meta : pyval)
    (w : list string) (r : res Beams) :
  (area <- lift (_to_area majors minors) ;;
   v <- lift (get_value area) ;;
   a <- lift (as_array v) ;;
   let self := mkBeams a sr ∅ in
   let self := store "majors" majors self in
   let self := store "minors" minors self in
   let self := store "pas" pas self in
   let self := store "default_unit" (PyUnit du) self in
   if is_None meta
   then (n <- lift (Beams_len self) ;;
         assign_meta (PyList (replicate n (PyDict ∅))) self)
   else assign_meta meta self)%py = (w, r) ->
  w = [] /\
  forall self, r = inr self -> exists a me, self = built a majors minors pas du me.
Proof.
  assert (Hassign : forall v s w' r',
            assign_meta v s = (w', r') ->
            w' = [] /\ forall self, r' = inr self -> self = store "_meta" v s).
  { intros v s w' r'. unfold assign_meta.
    destruct (meta_setter v s) as [[e | u] s'] eqn:E; intros [= <- <-];
      (split; [reflexivity |]); [discriminate |].
    intros self [= <-]. revert E.
    unfold meta_setter, st_bind, st_lift, st_read, st_store, st_raise.
    destruct (py_len v); [discriminate |].
    destruct (Beams_len s); [discriminate |].
    destruct (Nat.eqb _ _); [| discriminate].
    now intros [= <-]. }
  destruct (_to_area majors minors) as [e | area].
  { intros [= <- <-]. split; [reflexivity | discriminate]. }
  run. destruct (get_value area) as [e | v].
  { intros [= <- <-]. split; [reflexivity | discriminate]. }
  run. destruct (as_array v) as [e | a].
  { intros [= <- <-]. split; [reflexivity | discriminate]. }
  run. cbv zeta. destruct (is_None meta).
  - destruct (Beams_len _) as [e | n].
    { intros [= <- <-]. split; [reflexivity | discriminate]. }
    run. intros H. apply Hassign in H as [-> H]. split; [reflexivity |].
    intros self Hs. rewrite (H self Hs). eexists _, _. reflexivity.
  - intros H. apply Hassign in H as [-> H]. split; [reflexivity |].
    intros self Hs. rewrite (H self Hs). eexists _, _. reflexivity.
Qed.


Lemma bind_assoc {A B C} (m : M A) (f : A -> M B) (g : B -> M C) :
  bind (bind m f) g = bind m (fun a => bind (f a) g).
Proof.
  destruct m as [w [e | a]]; simpl; [reflexivity |].
  destruct (f a) as [w1 [e | b]]; simpl; [reflexivity |].
  destruct (g b) as [w2 r]. now rewrite app_assoc.
Qed.

Lemma bind_prefix_step {A B C} (m : M A) (f : A -> M C) (pre : A -> M B)
    (g : B -> M C) :
  (forall a, f a = bind (pre a) g) -> bind m f = bind (bind m pre) g.
Proof.
  intros H. rewrite bind_assoc. now apply bind_ext.
Qed.

(** The constructor first builds the object without metadata, in a way that
    does not depend on [meta], and assigns the metadata last. *)
Lemma Beams_new_prefix (majors minors pas areas : pyval) (du : Unit) :
  exists pre : M Beams,
    forall meta,
      Beams_new majors minors pas areas du meta
      = bind pre (fun self =>
          if is_None meta
          then bind (lift (Beams_len self))
                 (fun n => assign_meta (PyList (replicate n (PyDict ∅))) self)
          else assign_meta meta self).
Proof.
  eexists. intros meta. unfold Beams_new.
  do 8 (eapply bind_prefix_step; intros ?; cbv beta).
  cbv zeta.
  refine (eq_sym (bind_ret
    (store "default_unit" (PyUnit du)
       (store "pas" _ (store "minors" _ (store "majors" _ (mkBeams _ sr ∅))))) _)).
Qed.

Lemma getattr_store_meta (v : pyval) (self : Beams) :
  getattr (store "_meta" v self) "meta" = inr v.
Proof.
  unfold getattr, meta_getter, store. simpl. now rewrite lookup_insert_eq.
Qed.

Lemma store_meta_twice (v v' : pyval) (self : Beams) :
  store "_meta" v' (store "_meta" v self) = store "_meta" v' self.
Proof. unfold store. simpl. f_equal. apply insert_insert_eq. Qed.

(** X9: when [meta] is omitted, the metadata of the object is a list of
    empty dictionaries, one per beam. *)
Theorem Beams_new_meta_default (majors minors pas areas : pyval) (du : Unit)
    (w : list string) (self : Beams) :
  Beams_new majors minors pas areas du PyNone = (w, inr self) ->
  exists n,
    Beams_len self = inr n /\
    getattr self "meta" = inr (PyList (replicate n (PyDict ∅))).
Proof.
  intros H.
  destruct (Beams_new_prefix majors minors pas areas du) as [pre Hpre].
  rewrite Hpre in H. cbn [is_None] in H.
  apply bind_inr in H as (w1 & s0 & w2 & _ & H & _).
  apply bind_inr in H as (w3 & n & w4 & Hn & H & _).
  apply lift_inr in Hn as [Hn _].
  apply assign_meta_inr in H as (_ & -> & _).
  exists n. rewrite Beams_len_store_other by discriminate.
  split; [exact Hn | apply getattr_store_meta].
Qed.

(** X10: the [meta] argument is checked last, against the object built
    without it.  If the constructor returns an object of length [n] when
    [meta] is omitted, then with a [meta] of length [k] it raises the same
    warnings and returns that object with [meta] in place of the default
    when [k = n], and raises [TypeError] otherwise. *)
Theorem Beams_new_meta_argument (majors minors pas areas : pyval) (du : Unit)
    (w : list string) (self : Beams) (n : nat) (meta : pyval) (k : nat) :
  Beams_new majors minors pas areas du PyNone = (w, inr self) ->
  Beams_len self = inr n ->
  is_None meta = false ->
  py_len meta = inr k ->
  Beams_new majors minors pas areas du meta
  = (w, if Nat.eqb k n then inr (store "_meta" meta self)
        else inl (TypeError "metadata must be a list of dictionaries")).
Proof.
  intros H Hlen Hmeta Hk.
  destruct (Beams_new_prefix majors minors pas areas du) as [pre Hpre].
  rewrite Hpre in H. rewrite Hpre, Hmeta. cbn [is_None] in H.
  apply bind_inr in H as (w1 & s0 & w2 & Hp & H & ->).
  apply bind_inr in H as (w3 & n' & w4 & Hn & H & ->).
  apply lift_inr in Hn as [Hn ->].
  apply assign_meta_inr in H as (-> & -> & _).
  rewrite Beams_len_store_other, Hn in Hlen by discriminate.
  injection Hlen as ->.
  rewrite Hp. simpl.
  unfold assign_meta, meta_setter, st_bind, st_lift, st_read, st_store, st_raise.
  rewrite Hk, Hn.
  destruct (Nat.eqb k n); simpl; [| reflexivity].
  now rewrite store_meta_twice.
Qed.

(** X11: three axis sequences in units of angle and of one length, with a
    metadata list of that length, are stored as they are and read back
    unchanged, with no warning; the object is a Quantity in steradian
    holding the areas [_to_area] computed, and its length is the common
    length. *)
Theorem Beams_new_reads_back (xs ys zs : list float) (u1 u2 u3 : Unit)
    (du : Unit) (ms : list pyval) (area : ndarray) (un : Unit) :
  is_equivalent deg u1 = true ->
  is_equivalent deg u2 = true ->
  is_equivalent deg u3 = true ->
  length ys = length xs ->
  length zs = length xs ->
  length ms = length xs ->
  _to_area (PyQuantity (NdVec xs) u1) (PyQuantity (NdVec ys) u2)
    = inr (PyQuantity area un) ->
  exists self,
    Beams_new (PyQuantity (NdVec xs) u1) (PyQuantity (NdVec ys) u2)
      (PyQuantity (NdVec zs) u3) PyNone du (PyList ms) = ([], inr self) /\
    getattr self "majors" = inr (PyQuantity (NdVec xs) u1) /\
    getattr self "minors" = inr (PyQuantity (NdVec ys) u2) /\
    getattr self "pas" = inr (PyQuantity (NdVec zs) u3) /\
    getattr self "meta" = inr (PyList ms) /\
    getattr self "default_unit" = inr (PyUnit du) /\
    getattr self "value" = inr (PyArray area) /\
    getattr self "unit" = inr (PyUnit sr) /\
    Beams_len self = inr (length xs).
Proof.
  intros H1 H2 H3 Hy Hz Hm Ha.
  eexists. split.
  - apply Beams_new_explicit with (un := un); eassumption.
  - rewrite getattr_built_majors, getattr_built_minors, getattr_built_pas,
      getattr_built_meta, Beams_len_built.
    repeat split.
Qed.

(** ** Further properties of the metadata setter *)

(** X13: an assignment to [meta] is all or nothing, for every value and every
    object: either it succeeds, the value has the length of the collection
    and is what [meta] then holds, or it raises and the object is left as it
    was. *)
Theorem meta_setter_atomic (self self' : Beams) (v : pyval) (r : res unit) :
  meta_setter v self = (r, self') ->
  (r = inr tt /\ self' = store "_meta" v self /\
   (exists n, py_len v = inr n /\ Beams_len self = inr n) /\
   getattr self' "meta" = inr v)
  \/ (exists e, r = inl e /\ self' = self).
Proof.
  unfold meta_setter, st_bind, st_lift, st_read, st_store, st_raise.
  destruct (py_len v) as [e | k].
  { intros [= <- <-]. right. eauto. }
  destruct (Beams_len self) as [e | n].
  { intros [= <- <-]. right. eauto. }
  destruct (Nat.eqb k n) eqn:E; intros [= <- <-].
  - apply Nat.eqb_eq in E. subst k. left.
    repeat split; [eauto | apply getattr_store_meta].
  - right. eauto.
Qed.

(** X14: a successful assignment to [meta] changes nothing else: the length
    of the collection and every attribute other than [meta] and [_meta]
    read as before. *)
Theorem meta_setter_frame (self self' : Beams) (v : pyval) (name : string) :
  meta_setter v self = (inr tt, self') ->
  name <> "meta" -> name <> "_meta" ->
  Beams_len self' = Beams_len self /\
  getattr self' name = getattr self name.
Proof.
  unfold meta_setter, st_bind, st_lift, st_read, st_store, st_raise.
  destruct (py_len v); [discriminate |].
  destruct (Beams_len self) eqn:E; [discriminate |].
  destruct (Nat.eqb _ _); [| discriminate].
  intros [= <-] Hn1 Hn2. split.
  - rewrite Beams_len_store_other by discriminate. exact E.
  - unfold getattr, store. simpl.
    apply String.eqb_neq in Hn1. rewrite Hn1.
    now rewrite lookup_insert_ne by (intros Heq; apply Hn2; now rewrite Heq).
Qed.

(** X15: of two assignments to [meta] of values of the right length, the
    second one wins: the object is the one the second assignment alone
    produces. *)
Theorem meta_setter_twice (self : Beams) (v v' : pyval) (n : nat) :
  Beams_len self = inr n ->
  py_len v = inr n ->
  py_len v' = inr n ->
  meta_setter v' (snd (meta_setter v self)) = meta_setter v' self /\
  getattr (snd (meta_setter v' (snd (meta_setter v self)))) "meta" = inr v'.
Proof.
  intros Hs Hv Hv'.
  unfold meta_setter, st_bind, st_lift, st_read, st_store, st_raise.
  rewrite Hv, Hv', Hs, Nat.eqb_refl. simpl.
  rewrite Beams_len_store_other, Hs, Nat.eqb_refl by discriminate. simpl.
  rewrite store_meta_twice. split; [reflexivity | apply getattr_store_meta].
Qed.

(** X12: when the minor axes are omitted and no areas are given, the stored
    minor axes are the stored major axes, whether position angles are given
    or not. *)
Theorem Beams_new_circular_default (majors pas : pyval) (du : Unit) (meta : pyval)
    (w : list string) (self : Beams) :
  Beams_new majors PyNone pas PyNone du meta = (w, inr self) ->
  getattr self "minors" = getattr self "majors".
Proof.
  intros H.
  apply Beams_new_inv in H
    as (a & ma & mi & pa & me & n & -> & _ & _ & _ & _ & _ & Hmin & _).
  rewrite getattr_built_majors, getattr_built_minors.
  now rewrite (Hmin eq_refl eq_refl).
Qed.

(** ** Further properties of indexing and of [isfinite] *)

Lemma norm_index_mod (n : nat) (i : Z) :
  (- Z.of_nat n <= i < Z.of_nat n)%Z ->
  norm_index n i = Some (Z.to_nat (i mod Z.of_nat n)).
Proof.
  intros Hi. unfold norm_index.
  destruct (Z.ltb_spec i 0) as [Hneg | Hpos].
  - assert (Hmod : (i mod Z.of_nat n = i + Z.of_nat n)%Z).
    { rewrite <- (Z.mod_small (i + Z.of_nat n) (Z.of_nat n)) by lia.
      rewrite <- (Z_mod_plus_full i 1 (Z.of_nat n)). f_equal. lia. }
    rewrite Hmod.
    destruct (Z.leb_spec 0 (i + Z.of_nat n)); [| lia].
    destruct (Z.ltb_spec (i + Z.of_nat n) (Z.of_nat n)); [| lia].
    reflexivity.
  - rewrite Z.mod_small by lia.
    destruct (Z.leb_spec 0 i); [| lia].
    destruct (Z.ltb_spec i (Z.of_nat n)); [| lia].
    reflexivity.
Qed.

Lemma item_mod {A} (xs : list A) (i : Z) (x : A) :
  (- Z.of_nat (length xs) <= i < Z.of_nat (length xs))%Z ->
  xs !! Z.to_nat (i mod Z.of_nat (length xs)) = Some x ->
  item xs i = inr x.
Proof.
  intros Hi Hx. unfold item. rewrite norm_index_mod by exact Hi. now rewrite Hx.
Qed.

(** X16: on an object to which [major], [minor] and [pa] have been assigned
    as vectors of [n] entries next to a metadata list of [n] items, an int
    index [i] with [-n <= i < n] selects entry [i mod n] of each of the
    four and passes them to [Beam]. *)
Theorem getitem_int_selects (self : Beams) (xs ys zs : list float)
    (u1 u2 u3 : Unit) (ms : list pyval) (i : Z) (x y z : float) (m : pyval) :
  getattr self "major" = inr (PyQuantity (NdVec xs) u1) ->
  getattr self "minor" = inr (PyQuantity (NdVec ys) u2) ->
  getattr self "pa" = inr (PyQuantity (NdVec zs) u3) ->
  getattr self "meta" = inr (PyList ms) ->
  length ys = length xs -> length zs = length xs -> length ms = length xs ->
  (- Z.of_nat (length xs) <= i < Z.of_nat (length xs))%Z ->
  xs !! Z.to_nat (i mod Z.of_nat (length xs)) = Some x ->
  ys !! Z.to_nat (i mod Z.of_nat (length xs)) = Some y ->
  zs !! Z.to_nat (i mod Z.of_nat (length xs)) = Some z ->
  ms !! Z.to_nat (i mod Z.of_nat (length xs)) = Some m ->
  getitem self (PyInt i)
  = (b <~ Beam (PyQuantity (NdScalar x) u1) (PyQuantity (NdScalar y) u2)
            (PyQuantity (NdScalar z) u3) m ;;
     inr (Some b))%py.
Proof.
  intros Hma Hmi Hpa Hme Hy Hz Hm Hi Hx Hyy Hzz Hmm.
  unfold getitem. cbn [isinstance_int_slice].
  rewrite Hma, Hmi, Hpa, Hme. cbn [rbind py_getitem].
  rewrite (item_mod xs i x) by assumption.
  rewrite (item_mod ys i y) by (rewrite Hy; assumption).
  rewrite (item_mod zs i z) by (rewrite Hz; assumption).
  rewrite (item_mod ms i m) by (rewrite Hm; assumption).
  reflexivity.
Qed.

(** X17: on such an object, a boolean array of [n] items selects the entries
    at its true positions, in order; the metadata are paired with the mask
    item by item, so a metadata list of another length is cut or left
    short without an error. *)
Theorem getitem_mask_selects (self : Beams) (xs ys zs : list float)
    (u1 u2 u3 : Unit) (ms : list pyval) (bs : list bool) :
  getattr self "major" = inr (PyQuantity (NdVec xs) u1) ->
  getattr self "minor" = inr (PyQuantity (NdVec ys) u2) ->
  getattr self "pa" = inr (PyQuantity (NdVec zs) u3) ->
  getattr self "meta" = inr (PyList ms) ->
  length xs = length bs -> length ys = length bs -> length zs = length bs ->
  getitem self (PyMask bs)
  = (b <~ Beam (PyQuantity (NdVec (compress bs xs)) u1)
            (PyQuantity (NdVec (compress bs ys)) u2)
            (PyQuantity (NdVec (compress bs zs)) u3)
            (PyList (compress bs ms)) ;;
     inr (Some b))%py.
Proof.
  intros Hma Hmi Hpa Hme Hx Hy Hz.
  unfold getitem. cbn [isinstance_int_slice isinstance_ndarray dtype_name].
  cbn [String.eqb Ascii.eqb Bool.eqb negb].
  rewrite Hma, Hmi, Hpa, Hme. cbn [rbind py_getitem mask_bits py_iter].
  now rewrite Hx, Hy, Hz, Nat.eqb_refl.
Qed.

(** X18: on an object the constructor returned, indexing never yields a beam:
    a boolean array fails on the lookup of [self.major] like an int does, an
    array of another type is rejected with [ValueError], and any other index
    gives [None]. *)
Theorem getitem_never_returns_beam (majors minors pas areas : pyval) (du : Unit)
    (meta : pyval) (w : list string) (self : Beams) :
  Beams_new majors minors pas areas du meta = (w, inr self) ->
  (forall bs, getitem self (PyMask bs) = inl (AttributeError "major")) /\
  (forall a, getitem self (PyArray a)
     = inl (ValueError "If using an array to index beams, it must be a boolean array.")) /\
  (forall view b, getitem self view <> inr (Some b)).
Proof.
  intros H.
  apply Beams_new_inv in H as (a & ma & mi & pa & me & n & -> & _).
  split; [| split].
  - intros bs. unfold getitem.
    cbn [isinstance_int_slice isinstance_ndarray dtype_name
         String.eqb Ascii.eqb Bool.eqb negb].
    now rewrite getattr_built_major.
  - reflexivity.
  - intros view b. unfold getitem.
    destruct (isinstance_int_slice view).
    + now rewrite getattr_built_major.
    + destruct (isinstance_ndarray view); [| discriminate].
      destruct (negb _); [discriminate |].
      now rewrite getattr_built_major.
Qed.

(** X19: the [isfinite] property cannot be read on an object the constructor
    returned: its getter looks up [self.major], which was never assigned. *)
Theorem isfinite_raises (majors minors pas areas : pyval) (du : Unit)
    (meta : pyval) (w : list string) (self : Beams) :
  Beams_new majors minors pas areas du meta = (w, inr self) ->
  isfinite_getter self = inl (AttributeError "major").
Proof.
  intros H.
  apply Beams_new_inv in H as (a & ma & mi & pa & me & n & -> & _).
  unfold isfinite_getter. now rewrite getattr_built_major.
Qed.

(** Lengths of maps and zips of lists of one length. *)
Ltac same_length :=
  repeat first
    [ rewrite length_map
    | rewrite length_zip_with_l_eq by same_length ];
  congruence.

Lemma py_and_masks (xs ys : list bool) :
  length ys = length xs ->
  py_and (PyMask xs) (PyMask ys) = inr (PyMask (zip_with andb xs ys)).
Proof. intros H. cbn. now rewrite H, Nat.eqb_refl. Qed.

Lemma finite_beams_zip (xs ys zs : list float) :
  length ys = length xs -> length zs = length xs ->
  zip_with andb
    (zip_with andb
       (zip_with andb
          (zip_with andb (map (fun x => (0 <? x)%float) xs)
                         (map (fun x => (0 <? x)%float) ys))
          (map is_finite xs))
       (map is_finite ys))
    (map is_finite zs)
  = finite_beams xs ys zs.
Proof.
  revert ys zs. induction xs as [| x xs IH]; intros [| y ys] [| z zs];
    simpl; try discriminate; try reflexivity.
  intros [= Hy] [= Hz]. now rewrite IH.
Qed.

(** X20: on an object to which [major], [minor] and [pa] have been assigned
    as vectors of one length, [isfinite] is the boolean array that marks
    beam [i] exactly when both axes are positive and the axes and the
    position angle are neither NaN nor infinite. *)
Theorem isfinite_marks_finite_beams (self : Beams) (xs ys zs : list float)
    (u1 u2 u3 : Unit) :
  getattr self "major" = inr (PyQuantity (NdVec xs) u1) ->
  getattr self "minor" = inr (PyQuantity (NdVec ys) u2) ->
  getattr self "pa" = inr (PyQuantity (NdVec zs) u3) ->
  length ys = length xs -> length zs = length xs ->
  isfinite_getter self = inr (PyMask (finite_beams xs ys zs)).
Proof.
  intros Hma Hmi Hpa Hy Hz.
  unfold isfinite_getter. rewrite Hma, Hmi, Hpa.
  cbn [rbind gt_zero np_isfinite].
  rewrite py_and_masks by same_length. cbn [rbind].
  rewrite py_and_masks by same_length. cbn [rbind].
  rewrite py_and_masks by same_length. cbn [rbind].
  rewrite py_and_masks by same_length.
  now rewrite finite_beams_zip.
Qed.

(** ** Further properties of the table adapter *)




(** X22: whenever the adapter returns an object, it raised no warning; the
    object has one beam per row, its [majors], [minors] and [pas] are the
    columns BMAJ, BMIN and BPA as Quantities in arcsec (the position angles
    too), its [default_unit] is arcsec and its metadata has one item per
    row. *)
Theorem from_fits_bintable_shape (t : BinTableHDU) (w : list string)
    (self : Beams) :
  from_fits_bintable t = (w, inr self) ->
  w = [] /\
  Beams_len self = inr (length (data t)) /\
  getattr self "majors" = column_quantity t "BMAJ" /\
  getattr self "minors" = column_quantity t "BMIN" /\
  getattr self "pas" = column_quantity t "BPA" /\
  getattr self "default_unit" = inr (PyUnit arcsec) /\
  exists metas,
    getattr self "meta" = inr (PyList metas) /\ length metas = length (data t).
Proof.
  unfold from_fits_bintable. intros H.
  apply bind_inr in H as (w1 & majors & w2 & Hmaj & H & ->).
  apply lift_inr in Hmaj as [Hmaj ->].
  apply bind_inr in H as (w3 & minors & w4 & Hmin & H & ->).
  apply lift_inr in Hmin as [Hmin ->].
  apply bind_inr in H as (w5 & pas & w6 & Hpa & H & ->).
  apply lift_inr in Hpa as [Hpa ->].
  apply bind_inr in H as (w7 & metas & w8 & Hme & H & ->).
  apply lift_inr in Hme as [Hme ->].
  rewrite Hmaj, Hmin, Hpa.
  destruct (column_quantity_inr _ _ _ Hmaj) as (xs & -> & Hxs).
  destruct (column_quantity_inr _ _ _ Hmin) as (ys & -> & Hys).
  destruct (column_quantity_inr _ _ _ Hpa) as (zs & -> & Hzs).
  apply mapM_lookup in Hme as [Hlen _].
  pose proof (Beams_new_inv _ _ _ _ _ _ _ _ H)
    as (a0 & ma & mi & pa & me & n & Hself & _ & _ & _ & Hmeta & _).
  revert H. unfold Beams_new. run.
  rewrite !in_degrees_angle by reflexivity. run.
  rewrite Hzs, Hys, Hxs, Nat.eqb_refl. run.
  intros H.
  apply (Beams_new_tail (PyQuantity (NdVec xs) arcsec) (PyQuantity (NdVec ys) arcsec)
           (PyQuantity (NdVec zs) arcsec) arcsec (PyList metas)) in H as [-> H].
  destruct (H self eq_refl) as (a & me' & Hself').
  split; [reflexivity |].
  assert (Hm : getattr self "meta" = inr (PyList metas)).
  { rewrite Hself, getattr_built_meta. now rewrite (Hmeta eq_refl). }
  rewrite Hself' in *.
  rewrite Beams_len_built, getattr_built_majors, getattr_built_minors,
    getattr_built_pas.
  cbn [py_len]. rewrite Hxs.
  repeat split. eauto.
Qed.

End BeamsClass.

(** ** The class run with the collaborators of [beam.py] *)

Lemma Beams_new_default_pas_unsized_witness :
  exists self,
    Beams_new Collaborators.SIGMA_TO_FWHM Collaborators._to_area
      (PyQuantity (NdVec [1; 2]%float) deg) PyNone PyNone PyNone arcsec PyNone
      = ([], inr self) /\
    exists n,
      Beams_len self = inr n /\
      (v <~ getattr self "majors" ;; py_len v)%py = inr n /\
      (v <~ getattr self "minors" ;; py_len v)%py = inr n /\
      (v <~ getattr self "meta" ;; py_len v)%py = inr n /\
      (v <~ getattr self "pas" ;; py_len v)%py
        = inl (TypeError "len() of unsized object").
Proof.
  eexists. split; [vm_compute; reflexivity |].
  apply (Beams_new_default_pas_unsized Collaborators.SIGMA_TO_FWHM
           Collaborators._to_area (PyQuantity (NdVec [1; 2]%float) deg) PyNone
           arcsec PyNone []).
  vm_compute. reflexivity.
Defined.

Lemma Beams_new_areas_override_axes_witness :
  exists area un self,
    Collaborators._to_area
      (PyQuantity (NdVec [round_axis Collaborators.SIGMA_TO_FWHM 1;
                          round_axis Collaborators.SIGMA_TO_FWHM 1]) deg)
      (PyQuantity (NdVec [round_axis Collaborators.SIGMA_TO_FWHM 1;
                          round_axis Collaborators.SIGMA_TO_FWHM 1]) deg)
      = inr (PyQuantity area un) /\
    Beams_new Collaborators.SIGMA_TO_FWHM Collaborators._to_area
      (PyQuantity (NdVec [1; 2]%float) deg) (PyQuantity (NdVec [0.5; 1]%float) deg)
      PyNone (PyArray (NdVec [1; 1]%float)) arcsec PyNone = ([], inr self) /\
    getattr self "majors" <> inr (PyQuantity (NdVec [1; 2]%float) deg) /\
    getattr self "minors" <> inr (PyQuantity (NdVec [0.5; 1]%float) deg).
Proof.
  assert (Ha : exists area un,
    Collaborators._to_area
      (PyQuantity (NdVec [round_axis Collaborators.SIGMA_TO_FWHM 1;
                          round_axis Collaborators.SIGMA_TO_FWHM 1]) deg)
      (PyQuantity (NdVec [round_axis Collaborators.SIGMA_TO_FWHM 1;
                          round_axis Collaborators.SIGMA_TO_FWHM 1]) deg)
      = inr (PyQuantity area un)).
  { eexists _, _. vm_compute. reflexivity. }
  destruct Ha as (area & un & Ha). exists area, un.
  destruct (Beams_new_areas_override_axes Collaborators.SIGMA_TO_FWHM
              Collaborators._to_area arcsec area un Ha)
    as (self & Hnew & _ & _ & Hmaj & Hmin).
  exists self. auto.
Defined.

Lemma Beams_new_majors_only_witness :
  exists self,
    Beams_new Collaborators.SIGMA_TO_FWHM Collaborators._to_area
      (PyQuantity (NdVec [1; 2; 3]%float) arcsec) PyNone PyNone PyNone arcsec PyNone
      = ([], inr self) /\
    getattr self "minors" = getattr self "majors" /\
    getattr self "pas" = inr scalar_zero.
Proof.
  eexists. split; [vm_compute; reflexivity |].
  destruct (Beams_new_majors_only Collaborators.SIGMA_TO_FWHM Collaborators._to_area
              (PyQuantity (NdVec [1; 2; 3]%float) arcsec) arcsec PyNone [] _ eq_refl)
    as ((z & un & _ & Hmaj & Hmin) & Hpas & _).
  split; [exact (eq_trans Hmin (eq_sym Hmaj)) | exact Hpas].
Defined.

Lemma Beams_new_areas_discard_pas_witness :
  exists self,
    Beams_new Collaborators.SIGMA_TO_FWHM Collaborators._to_area
      PyNone PyNone (PyQuantity (NdVec [30; 40]%float) deg)
      (PyArray (NdVec [1; 4]%float)) arcsec PyNone = ([], inr self) /\
    getattr self "pas" = inr (PyQuantity (NdVec [0; 0]%float) deg).
Proof.
  eexists. split; [vm_compute; reflexivity |].
  destruct (Beams_new_areas_discard_pas Collaborators.SIGMA_TO_FWHM
              Collaborators._to_area
              PyNone PyNone (PyQuantity (NdVec [30; 40]%float) deg)
              (PyArray (NdVec [1; 4]%float)) arcsec PyNone [] _ eq_refl eq_refl)
    as (_ & n & un & Hn & Hpas).
  vm_compute. reflexivity.
Defined.

Lemma getitem_int_raises_witness :
  exists self,
    Beams_new Collaborators.SIGMA_TO_FWHM Collaborators._to_area
      (PyQuantity (NdVec [1; 2; 3]%float) deg)
      (PyQuantity (NdVec [0.5; 1; 1.5]%float) deg)
      (PyQuantity (NdVec [0; 10; 20]%float) deg) PyNone arcsec PyNone
      = ([], inr self) /\
    getitem Collaborators.BeamT Collaborators.Beam self (PyInt 1)
      = inl (AttributeError "major").
Proof.
  eexists. split; [vm_compute; reflexivity |].
  apply (getitem_int_raises Collaborators.SIGMA_TO_FWHM Collaborators._to_area
           Collaborators.BeamT Collaborators.Beam
           (PyQuantity (NdVec [1; 2; 3]%float) deg)
           (PyQuantity (NdVec [0.5; 1; 1.5]%float) deg)
           (PyQuantity (NdVec [0; 10; 20]%float) deg) PyNone arcsec PyNone []).
  - vm_compute. reflexivity.
  - reflexivity.
Defined.

Lemma getitem_other_returns_None_witness :
  getitem Collaborators.BeamT Collaborators.Beam
    (built (NdVec [0; 0]%float) (PyQuantity (NdVec [1; 2]%float) deg)
       (PyQuantity (NdVec [1; 2]%float) deg) (PyQuantity (NdVec [0; 0]%float) deg)
       arcsec (PyList [PyDict ∅; PyDict ∅]))
    (PyStr "CHAN") = inr None.
Proof.
  apply (getitem_other_returns_None Collaborators.BeamT Collaborators.Beam);
    reflexivity.
Defined.

Lemma meta_setter_guard_witness :
  let self := built (NdVec [0; 0]%float) (PyQuantity (NdVec [1; 2]%float) deg)
                (PyQuantity (NdVec [1; 2]%float) deg)
                (PyQuantity (NdVec [0; 0]%float) deg) arcsec
                (PyList [PyDict ∅; PyDict ∅]) in
  meta_setter (PyList [PyDict ∅; PyDict ∅; PyDict ∅]) self
    = (inl (TypeError "metadata must be a list of dictionaries"), self) /\
  getattr (snd (meta_setter (PyList [PyDict {["CHAN" := PyInt 0]}; PyDict ∅]) self)) "meta"
    = inr (PyList [PyDict {["CHAN" := PyInt 0]}; PyDict ∅]).
Proof.
  intros self. split.
  - apply (meta_setter_guard self (PyList [PyDict ∅; PyDict ∅; PyDict ∅]) 2 3);
      [reflexivity | reflexivity | lia].
  - apply (meta_setter_guard self (PyList [PyDict {["CHAN" := PyInt 0]}; PyDict ∅]) 2 2);
      reflexivity.
Defined.

Lemma meta_setter_checks_length_only_witness :
  let self := built (NdVec [0; 0]%float) (PyQuantity (NdVec [1; 2]%float) deg)
                (PyQuantity (NdVec [1; 2]%float) deg)
                (PyQuantity (NdVec [0; 0]%float) deg) arcsec
                (PyList [PyDict ∅; PyDict ∅]) in
  meta_setter (PyList [PyInt 7; PyStr "x"]) self
    = (inr tt, store "_meta" (PyList [PyInt 7; PyStr "x"]) self) /\
  getattr (store "_meta" (PyList [PyInt 7; PyStr "x"]) self) "meta"
    = inr (PyList [PyInt 7; PyStr "x"]).
Proof.
  intros self.
  apply (meta_setter_checks_length_only self (PyList [PyInt 7; PyStr "x"]) 2);
    reflexivity.
Defined.

Lemma from_fits_bintable_meta_witness :
  let t := mkBinTable ["BMAJ"; "BMIN"; "BPA"; "CHAN"; "POL"]
             [[PyFloat 1; PyFloat 0.5; PyFloat 0; PyInt 0; PyInt 1];
              [PyFloat 2; PyFloat 1; PyFloat 10; PyInt 1; PyInt 1]] in
  table_wf t /\
  exists self metas,
    from_fits_bintable Collaborators.SIGMA_TO_FWHM Collaborators._to_area t
      = ([], inr self) /\
    getattr self "meta" = inr (PyList metas) /\
    metas = [PyDict {["CHAN" := PyInt 0; "POL" := PyInt 1]};
             PyDict {["CHAN" := PyInt 1; "POL" := PyInt 1]}].
Proof.
  intros t.
  assert (Hwf : table_wf t) by (repeat constructor).
  split; [exact Hwf |].
  destruct (from_fits_bintable_meta Collaborators.SIGMA_TO_FWHM Collaborators._to_area
              t _ _ _ _ _ Hwf eq_refl eq_refl eq_refl eq_refl)
    as (self & metas & Hnew & _ & _ & _ & Hmeta & _).
  exists self, metas. split; [exact Hnew |]. split; [exact Hmeta |].
  vm_compute in Hnew. injection Hnew as <-.
  vm_compute in Hmeta. injection Hmeta as <-.
  vm_compute. reflexivity.
Defined.

(** ** Further runs *)

Lemma Beams_new_lengths_witness :
  exists self,
    Beams_new Collaborators.SIGMA_TO_FWHM Collaborators._to_area
      (PyQuantity (NdVec [1; 2; 3]%float) deg)
      (PyQuantity (NdVec [0.5; 1; 1.5]%float) deg)
      (PyQuantity (NdVec [0; 10; 20]%float) deg) PyNone arcsec PyNone
      = ([], inr self) /\
    exists n,
      Beams_len self = inr n /\
      (v <~ getattr self "majors" ;; py_len v)%py = inr n /\
      (v <~ getattr self "minors" ;; py_len v)%py = inr n /\
      (v <~ getattr self "pas" ;; py_len v)%py = inr n /\
      (v <~ getattr self "meta" ;; py_len v)%py = inr n.
Proof.
  eexists. split; [vm_compute; reflexivity |].
  apply (Beams_new_lengths Collaborators.SIGMA_TO_FWHM Collaborators._to_area
           (PyQuantity (NdVec [1; 2; 3]%float) deg)
           (PyQuantity (NdVec [0.5; 1; 1.5]%float) deg)
           (PyQuantity (NdVec [0; 10; 20]%float) deg) PyNone arcsec PyNone []).
  - vm_compute. reflexivity.
  - right. reflexivity.
Defined.


Lemma Beams_new_pas_length_mismatch_witness :
  (Beams_new Collaborators.SIGMA_TO_FWHM Collaborators._to_area
     (PyQuantity (NdVec [1; 2]%float) deg) PyNone
     (PyQuantity (NdVec [0]%float) deg) PyNone arcsec PyNone).2
  = inl (ValueError
      "Number of position angles must match number of major axis lengths").
Proof.
  apply (Beams_new_pas_length_mismatch Collaborators.SIGMA_TO_FWHM
           Collaborators._to_area [1; 2]%float [0]%float deg deg PyNone arcsec PyNone).
  - left. reflexivity.
  - simpl. lia.
Defined.

Lemma Beams_new_minors_length_mismatch_witness :
  (Beams_new Collaborators.SIGMA_TO_FWHM Collaborators._to_area
     (PyQuantity (NdVec [1; 2]%float) deg) (PyQuantity (NdVec [1; 2; 3]%float) deg)
     PyNone PyNone arcsec PyNone).2
  = inl (ValueError "Minor and major axes must have same number of values").
Proof.
  apply (Beams_new_minors_length_mismatch Collaborators.SIGMA_TO_FWHM
           Collaborators._to_area [1; 2]%float [1; 2; 3]%float deg deg PyNone
           arcsec PyNone).
  - left. reflexivity.
  - simpl. lia.
Defined.




Lemma Beams_new_meta_default_witness :
  exists self,
    Beams_new Collaborators.SIGMA_TO_FWHM Collaborators._to_area
      (PyQuantity (NdVec [1; 2]%float) deg) PyNone PyNone PyNone arcsec PyNone
      = ([], inr self) /\
    getattr self "meta" = inr (PyList [PyDict ∅; PyDict ∅]).
Proof.
  eexists. split; [vm_compute; reflexivity |].
  destruct (Beams_new_meta_default Collaborators.SIGMA_TO_FWHM Collaborators._to_area
              (PyQuantity (NdVec [1; 2]%float) deg) PyNone PyNone PyNone arcsec
              [] _ ltac:(vm_compute; reflexivity)) as (n & Hn & Hmeta).
  vm_compute. reflexivity.
Defined.

Lemma Beams_new_meta_argument_witness :
  exists self,
    Beams_new Collaborators.SIGMA_TO_FWHM Collaborators._to_area
      (PyQuantity (NdVec [1; 2]%float) deg) PyNone PyNone PyNone arcsec PyNone
      = ([], inr self) /\
    Beams_new Collaborators.SIGMA_TO_FWHM Collaborators._to_area
      (PyQuantity (NdVec [1; 2]%float) deg) PyNone PyNone PyNone arcsec
      (PyList [PyDict ∅])
      = ([], inl (TypeError "metadata must be a list of dictionaries")).
Proof.
  eexists. split; [vm_compute; reflexivity |].
  eapply (Beams_new_meta_argument Collaborators.SIGMA_TO_FWHM Collaborators._to_area
            (PyQuantity (NdVec [1; 2]%float) deg) PyNone PyNone PyNone arcsec
            [] ?[s] 2 (PyList [PyDict ∅]) 1); vm_compute; reflexivity.
Defined.

Lemma Beams_new_reads_back_witness :
  exists self,
    Beams_new Collaborators.SIGMA_TO_FWHM Collaborators._to_area
      (PyQuantity (NdVec [1; 2]%float) deg) (PyQuantity (NdVec [0.5; 1]%float) arcsec)
      (PyQuantity (NdVec [0; 10]%float) deg) PyNone arcsec
      (PyList [PyDict {["CHAN" := PyInt 0]}; PyDict {["CHAN" := PyInt 1]}])
      = ([], inr self) /\
    getattr self "minors" = inr (PyQuantity (NdVec [0.5; 1]%float) arcsec) /\
    getattr self "default_unit" = inr (PyUnit arcsec).
Proof.
  destruct (Beams_new_reads_back Collaborators.SIGMA_TO_FWHM Collaborators._to_area
              [1; 2]%float [0.5; 1]%float [0; 10]%float deg arcsec deg arcsec
              [PyDict {["CHAN" := PyInt 0]}; PyDict {["CHAN" := PyInt 1]}]
              _ _ eq_refl eq_refl eq_refl eq_refl eq_refl eq_refl eq_refl)
    as (self & Hnew & _ & Hmin & _ & _ & Hdu & _).
  exists self. auto.
Defined.

Lemma meta_setter_atomic_witness :
  let self := built (NdVec [0; 0]%float) (PyQuantity (NdVec [1; 2]%float) deg)
                (PyQuantity (NdVec [1; 2]%float) deg)
                (PyQuantity (NdVec [0; 0]%float) deg) arcsec
                (PyList [PyDict ∅; PyDict ∅]) in
  meta_setter PyNone self = (inl (TypeError "object has no len()"), self) /\
  ((inl (TypeError "object has no len()") : res unit) = inr tt /\
     self = store "_meta" PyNone self /\
     (exists n, py_len PyNone = inr n /\ Beams_len self = inr n) /\
     getattr self "meta" = inr PyNone
   \/ exists e, (inl (TypeError "object has no len()") : res unit) = inl e /\ self = self).
Proof.
  intros self.
  assert (H : meta_setter PyNone self = (inl (TypeError "object has no len()"), self))
    by reflexivity.
  split; [exact H |].
  exact (meta_setter_atomic self self PyNone _ H).
Defined.

Lemma meta_setter_frame_witness :
  let self := built (NdVec [0; 0]%float) (PyQuantity (NdVec [1; 2]%float) deg)
                (PyQuantity (NdVec [1; 2]%float) deg)
                (PyQuantity (NdVec [0; 0]%float) deg) arcsec
                (PyList [PyDict ∅; PyDict ∅]) in
  let v := PyList [PyInt 7; PyStr "x"] in
  meta_setter v self = (inr tt, store "_meta" v self) /\
  Beams_len (store "_meta" v self) = Beams_len self /\
  getattr (store "_meta" v self) "majors" = getattr self "majors".
Proof.
  intros self v.
  assert (H : meta_setter v self = (inr tt, store "_meta" v self)) by reflexivity.
  split; [exact H |].
  apply (meta_setter_frame self (store "_meta" v self) v "majors" H); discriminate.
Defined.

Lemma meta_setter_twice_witness :
  let self := built (NdVec [0; 0]%float) (PyQuantity (NdVec [1; 2]%float) deg)
                (PyQuantity (NdVec [1; 2]%float) deg)
                (PyQuantity (NdVec [0; 0]%float) deg) arcsec
                (PyList [PyDict ∅; PyDict ∅]) in
  getattr (snd (meta_setter (PyList [PyInt 3; PyInt 4])
                  (snd (meta_setter (PyList [PyInt 1; PyInt 2]) self)))) "meta"
  = inr (PyList [PyInt 3; PyInt 4]).
Proof.
  intros self.
  apply (meta_setter_twice self (PyList [PyInt 1; PyInt 2])
           (PyList [PyInt 3; PyInt 4]) 2); reflexivity.
Defined.

Lemma Beams_new_circular_default_witness :
  exists self,
    Beams_new Collaborators.SIGMA_TO_FWHM Collaborators._to_area
      (PyQuantity (NdVec [1; 2]%float) deg) PyNone
      (PyQuantity (NdVec [0; 10]%float) deg) PyNone arcsec PyNone
      = ([], inr self) /\
    getattr self "minors" = getattr self "majors".
Proof.
  eexists. split; [vm_compute; reflexivity |].
  apply (Beams_new_circular_default Collaborators.SIGMA_TO_FWHM Collaborators._to_area
           (PyQuantity (NdVec [1; 2]%float) deg)
           (PyQuantity (NdVec [0; 10]%float) deg) arcsec PyNone []).
  vm_compute. reflexivity.
Defined.

Lemma getitem_int_selects_witness :
  let base := built (NdVec [0; 0; 0]%float) (PyQuantity (NdVec [1; 2; 3]%float) deg)
                (PyQuantity (NdVec [0.5; 1; 1.5]%float) deg)
                (PyQuantity (NdVec [0; 10; 20]%float) deg) arcsec
                (PyList [PyInt 0; PyInt 1; PyInt 2]) in
  let self := store "major" (PyQuantity (NdVec [1; 2; 3]%float) deg)
                (store "minor" (PyQuantity (NdVec [0.5; 1; 1.5]%float) deg)
                   (store "pa" (PyQuantity (NdVec [0; 10; 20]%float) deg) base)) in
  getitem Collaborators.BeamT Collaborators.Beam self (PyInt (-1))
  = inr (Some (Collaborators.mkBeam (PyQuantity (NdScalar 3) deg)
                 (PyQuantity (NdScalar 1.5) deg) (PyQuantity (NdScalar 20) deg)
                 (PyInt 2))).
Proof.
  intros base self.
  apply (getitem_int_selects Collaborators.BeamT Collaborators.Beam self
           [1; 2; 3]%float [0.5; 1; 1.5]%float [0; 10; 20]%float deg deg deg
           [PyInt 0; PyInt 1; PyInt 2] (-1) 3 1.5 20 (PyInt 2));
    try reflexivity.
  simpl. lia.
Defined.

Lemma getitem_mask_selects_witness :
  let base := built (NdVec [0; 0; 0]%float) (PyQuantity (NdVec [1; 2; 3]%float) deg)
                (PyQuantity (NdVec [0.5; 1; 1.5]%float) deg)
                (PyQuantity (NdVec [0; 10; 20]%float) deg) arcsec
                (PyList [PyInt 0; PyInt 1; PyInt 2]) in
  let self := store "major" (PyQuantity (NdVec [1; 2; 3]%float) deg)
                (store "minor" (PyQuantity (NdVec [0.5; 1; 1.5]%float) deg)
                   (store "pa" (PyQuantity (NdVec [0; 10; 20]%float) deg) base)) in
  getitem Collaborators.BeamT Collaborators.Beam self (PyMask [true; false; true])
  = inr (Some (Collaborators.mkBeam (PyQuantity (NdVec [1; 3]%float) deg)
                 (PyQuantity (NdVec [0.5; 1.5]%float) deg)
                 (PyQuantity (NdVec [0; 20]%float) deg)
                 (PyList [PyInt 0; PyInt 2]))).
Proof.
  intros base self.
  apply (getitem_mask_selects Collaborators.BeamT Collaborators.Beam self
           [1; 2; 3]%float [0.5; 1; 1.5]%float [0; 10; 20]%float deg deg deg
           [PyInt 0; PyInt 1; PyInt 2] [true; false; true]);
    reflexivity.
Defined.

Lemma getitem_never_returns_beam_witness :
  exists self,
    Beams_new Collaborators.SIGMA_TO_FWHM Collaborators._to_area
      (PyQuantity (NdVec [1; 2; 3]%float) deg)
      (PyQuantity (NdVec [0.5; 1; 1.5]%float) deg)
      (PyQuantity (NdVec [0; 10; 20]%float) deg) PyNone arcsec PyNone
      = ([], inr self) /\
    getitem Collaborators.BeamT Collaborators.Beam self (PyMask [true; false; true])
      = inl (AttributeError "major").
Proof.
  eexists. split; [vm_compute; reflexivity |].
  apply (getitem_never_returns_beam Collaborators.SIGMA_TO_FWHM Collaborators._to_area
           Collaborators.BeamT Collaborators.Beam
           (PyQuantity (NdVec [1; 2; 3]%float) deg)
           (PyQuantity (NdVec [0.5; 1; 1.5]%float) deg)
           (PyQuantity (NdVec [0; 10; 20]%float) deg) PyNone arcsec PyNone []).
  vm_compute. reflexivity.
Defined.

Lemma isfinite_raises_witness :
  exists self,
    Beams_new Collaborators.SIGMA_TO_FWHM Collaborators._to_area
      (PyQuantity (NdVec [1; 2]%float) deg) PyNone PyNone PyNone arcsec PyNone
      = ([], inr self) /\
    isfinite_getter self = inl (AttributeError "major").
Proof.
  eexists. split; [vm_compute; reflexivity |].
  apply (isfinite_raises Collaborators.SIGMA_TO_FWHM Collaborators._to_area
           (PyQuantity (NdVec [1; 2]%float) deg) PyNone PyNone PyNone arcsec PyNone []).
  vm_compute. reflexivity.
Defined.

Lemma isfinite_marks_finite_beams_witness :
  let base := built (NdVec [0; 0; 0; 0]%float)
                (PyQuantity (NdVec [1; 0; 2; 3]%float) deg)
                (PyQuantity (NdVec [1; 1; 1; infinity]%float) deg)
                (PyQuantity (NdVec [0; 0; nan; 0]%float) deg) arcsec
                (PyList [PyDict ∅; PyDict ∅; PyDict ∅; PyDict ∅]) in
  let self := store "major" (PyQuantity (NdVec [1; 0; 2; 3]%float) deg)
                (store "minor" (PyQuantity (NdVec [1; 1; 1; infinity]%float) deg)
                   (store "pa" (PyQuantity (NdVec [0; 0; nan; 0]%float) deg) base)) in
  isfinite_getter self = inr (PyMask [true; false; false; false]).
Proof.
  intros base self.
  apply (isfinite_marks_finite_beams self [1; 0; 2; 3]%float
           [1; 1; 1; infinity]%float [0; 0; nan; 0]%float deg deg deg);
    reflexivity.
Defined.


Lemma from_fits_bintable_shape_witness :
  let t := mkBinTable ["BMAJ"; "BMIN"; "BPA"; "CHAN"; "POL"]
             [[PyFloat 1; PyFloat 0.5; PyFloat 0; PyInt 0; PyInt 1];
              [PyFloat 2; PyFloat 1; PyFloat 10; PyInt 1; PyInt 1]] in
  exists self,
    from_fits_bintable Collaborators.SIGMA_TO_FWHM Collaborators._to_area t
      = ([], inr self) /\
    Beams_len self = inr 2 /\
    getattr self "pas" = inr (PyQuantity (NdVec [0; 10]%float) arcsec).
Proof.
  intros t. eexists. split; [vm_compute; reflexivity |].
  destruct (from_fits_bintable_shape Collaborators.SIGMA_TO_FWHM Collaborators._to_area
              t [] _ ltac:(vm_compute; reflexivity))
    as (_ & Hlen & _ & _ & Hpas & _).
  split; [exact Hlen | exact Hpas].
Defined.
